(** * leptos-motion: development servers and version-consistency checker

    A shallow embedding of the four Python scripts of the repository:

    - [scripts/check-version-consistency.py]   (module [VersionChecker])
    - [examples/capability-showcase/serve.py],
      [examples/comprehensive-demo/serve.py],
      [examples/webgl-demo/server.py]          (module [DevServer])

    Python code is written in a small state-and-exception monad ([Py]):
    a statement is a function from the state of the process to an outcome
    (a value, or a raised exception) and the new state. *)

From Stdlib Require Import ZArith String Ascii List Bool Lia.
From stdpp Require Import base strings pretty gmap list.

Local Open Scope string_scope.
Local Open Scope Z_scope.
Local Set Warnings "-register-all".

(** ** Python exceptions and the state-and-exception monad *)

Module Py.

(** The exceptions the scripts can meet. [SystemExit] carries the status
    given to [sys.exit]. *)
Inductive exn : Type :=
  | FileNotFoundError
  | OSError
  | TomlDecodeError
  | KeyError (key : string)
  | TypeError
  | KeyboardInterrupt
  | SystemExit (code : Z).

Inductive outcome (A : Type) : Type :=
  | Ret (a : A)
  | Raise (e : exn).
Arguments Ret {A} a.
Arguments Raise {A} e.

Definition M (St A : Type) : Type := St -> outcome A * St.

Definition ret {St A} (a : A) : M St A := fun s => (Ret a, s).

Definition raise {St A} (e : exn) : M St A := fun s => (Raise e, s).

Definition bind {St A B} (m : M St A) (k : A -> M St B) : M St B :=
  fun s =>
    match m s with
    | (Ret a, s') => k a s'
    | (Raise e, s') => (Raise e, s')
    end.

(** [try: body except e_class: handler] *)
Definition try_except {St A} (body : M St A) (catches : exn -> bool)
    (handler : M St A) : M St A :=
  fun s =>
    match body s with
    | (Ret a, s') => (Ret a, s')
    | (Raise e, s') => if catches e then handler s' else (Raise e, s')
    end.

(** [with cm: body]: the exit action runs however the body ends, and the
    body's outcome is kept. *)
Definition with_exit {St A} (body : M St A) (on_exit : St -> St) : M St A :=
  fun s => let '(o, s') := body s in (o, on_exit s').

(** [for x in xs: body x]; [continue] is the body returning early. *)
Fixpoint for_each {St X} (xs : list X) (body : X -> M St unit) : M St unit :=
  match xs with
  | [] => ret tt
  | x :: rest => bind (body x) (fun _ => for_each rest body)
  end.

(** [sys.exit(code)] *)
Definition sys_exit {St A} (code : Z) : M St A := raise (SystemExit code).

(** How the interpreter ends a process whose main program finished with
    the given outcome: status 0 after a normal end, the status of an
    uncaught [SystemExit], 130 for an uncaught [KeyboardInterrupt] (the
    process ends by SIGINT), and 1 after the traceback of any other
    uncaught exception. *)
Definition exit_status {A} (o : outcome A) : Z :=
  match o with
  | Ret _ => 0
  | Raise (SystemExit code) => code
  | Raise KeyboardInterrupt => 130
  | Raise _ => 1
  end.

End Py.

Declare Scope py_scope.
Delimit Scope py_scope with py.
Notation "'let*' x ':=' m 'in' k" := (Py.bind m (fun x => k))
  (at level 10, x name, m at level 100, k at level 200) : py_scope.
Notation "m '>>' k" := (Py.bind m (fun _ => k))
  (at level 100, k at level 200, right associativity) : py_scope.

(** ** The version-consistency checker *)

Module VersionChecker.

(** *** Parsed TOML documents

    [toml.load] returns a Python dict whose values are strings, integers,
    booleans, lists and dicts (floats and date-times are left out of the
    model). A dict keeps its keys in insertion order. *)
Inductive toml_value : Type :=
  | TStr (s : string)
  | TInt (n : Z)
  | TBool (b : bool)
  | TArray (items : list toml_value)
  | TTable (fields : list (string * toml_value)).

(** [d.get(key)] on the fields of a dict. *)
Fixpoint assoc (key : string) (fields : list (string * toml_value))
    : option toml_value :=
  match fields with
  | [] => None
  | (k, v) :: rest => if String.eqb key k then Some v else assoc key rest
  end.

(** [isinstance(v, dict)] *)
Definition is_dict (v : toml_value) : bool :=
  match v with TTable _ => true | _ => false end.

(** [key in v], used on dicts only. *)
Definition has_key (key : string) (v : toml_value) : bool :=
  match v with
  | TTable fields => match assoc key fields with Some _ => true | None => false end
  | _ => false
  end.

(** Python's [==] on parsed values: strings, lists and dicts compare by
    content (dicts without regard to order), [True == 1] and [False == 0],
    and values of different kinds are unequal. *)
Fixpoint py_eq (a b : toml_value) {struct a} : bool :=
  match a, b with
  | TStr s, TStr t => String.eqb s t
  | TInt n, TInt m => Z.eqb n m
  | TBool x, TBool y => Bool.eqb x y
  | TInt n, TBool y => Z.eqb n (if y then 1 else 0)
  | TBool x, TInt m => Z.eqb (if x then 1 else 0) m
  | TArray xs, TArray ys =>
      (fix items (xs ys : list toml_value) {struct xs} : bool :=
         match xs, ys with
         | [], [] => true
         | x :: xs', y :: ys' => py_eq x y && items xs' ys'
         | _, _ => false
         end) xs ys
  | TTable fs, TTable gs =>
      Nat.eqb (length fs) (length gs) &&
      (fix fields (fs : list (string * toml_value)) {struct fs} : bool :=
         match fs with
         | [] => true
         | (k, v) :: fs' =>
             match assoc k gs with
             | Some w => py_eq v w
             | None => false
             end && fields fs'
         end) fs
  | _, _ => false
  end.

(** [a != b] *)
Definition py_ne (a b : toml_value) : bool := negb (py_eq a b).

(** *** The files the checker reads

    What the checker can find at a path: nothing (the key is absent from
    the map), something [open] cannot read (a directory, a file without
    read permission), a file that is not valid TOML, or a manifest. *)
Inductive entry : Type :=
  | Unreadable
  | Malformed
  | Manifest (doc : list (string * toml_value)).

(** What a run does, in order: the file-system calls and the version
    comparisons it makes. *)
Inductive event : Type :=
  | EvExists (path : string)
  | EvOpen (path : string)
  | EvCompare (crate_version workspace_version : toml_value).

(** The state of a run: the arguments of the calls of [print], one entry
    per call, and the events so far, oldest first. [print] writes its
    argument and a newline to standard output, so an entry that holds a
    newline shows there as several lines. *)
Record run_state : Type := RunState {
  stdout : list string;
  events : list event
}.

Definition start : run_state := RunState [] [].

Local Open Scope py_scope.

Abbreviation Run := (Py.M run_state).

(** [print(line)]: the argument is recorded as it is. *)
Definition print (line : string) : Run unit :=
  fun s => (Py.Ret tt, RunState (stdout s ++ [line]) (events s)).

Definition log (e : event) : Run unit :=
  fun s => (Py.Ret tt, RunState (stdout s) (events s ++ [e])).

(** [v[key]]: a dict gives the value or raises [KeyError]; a string, an
    integer, a boolean or a list indexed by a string raises [TypeError]. *)
Definition getitem (v : toml_value) (key : string) : Run toml_value :=
  match v with
  | TTable fields =>
      match assoc key fields with
      | Some w => Py.ret w
      | None => Py.raise (Py.KeyError key)
      end
  | _ => Py.raise Py.TypeError
  end.

Section Checker.

(** Python's built-in [repr] on parsed values, which [str] and f-strings
    use for everything but strings. *)
Variable py_repr : toml_value -> string.

(** The files on disk, by path relative to the directory of the run. *)
Variable fs : gmap string entry.

(** [str(v)], as an f-string formats [{v}]. *)
Definition py_str (v : toml_value) : string :=
  match v with
  | TStr s => s
  | _ => py_repr v
  end.

(** [os.path.exists(path)] *)
Definition path_exists (path : string) : Run bool :=
  log (EvExists path) >>
  Py.ret (match fs !! path with Some _ => true | None => false end).

(** [with open(path, "r") as f: toml.load(f)] *)
Definition load_toml (path : string) : Run toml_value :=
  log (EvOpen path) >>
  match fs !! path with
  | None => Py.raise Py.FileNotFoundError
  | Some Unreadable => Py.raise Py.OSError
  | Some Malformed => Py.raise Py.TomlDecodeError
  | Some (Manifest doc) => Py.ret (TTable doc)
  end.

(** [crate_version != workspace_version] *)
Definition differs (crate_version workspace_version : toml_value) : Run bool :=
  log (EvCompare crate_version workspace_version) >>
  Py.ret (py_ne crate_version workspace_version).

Definition crates : list string :=
  [ "leptos-motion-core";
    "leptos-motion-dom";
    "leptos-motion-gestures";
    "leptos-motion-layout";
    "leptos-motion-scroll";
    "leptos-motion-macros";
    "leptos-motion" ].

Definition crate_path (crate : string) : string :=
  "crates/" +:+ crate +:+ "/Cargo.toml".

Definition warning (crate : string) : string :=
  "Warning: " +:+ crate_path crate +:+ " not found, skipping...".

Definition mismatch (crate : string) (crate_version workspace_version : toml_value)
    : string :=
  "Version mismatch: " +:+ crate +:+ " has " +:+ py_str crate_version
    +:+ ", workspace has " +:+ py_str workspace_version.

Definition success : string := "All versions are consistent!".

(** The body of [for crate in crates]. *)
Definition check_crate (workspace_version : toml_value) (crate : string)
    : Run unit :=
  let* found := path_exists (crate_path crate) in
  if negb found then
    print (warning crate)
    (* continue *)
  else
    let* crate_toml := load_toml (crate_path crate) in
    let* package := getitem crate_toml "package" in
    let* crate_version := getitem package "version" in
    if is_dict crate_version && has_key "workspace" crate_version then
      Py.ret tt
      (* continue *)
    else
      let* ne := differs crate_version workspace_version in
      if ne then
        print (mismatch crate crate_version workspace_version) >>
        Py.sys_exit 1
      else
        Py.ret tt.

(** The loop of [main], over any list of members. *)
Definition check_crates (workspace_version : toml_value) (members : list string)
    : Run unit :=
  Py.for_each members (check_crate workspace_version).

(** [workspace["workspace"]["package"]["version"]] of the root manifest. *)
Definition read_workspace_version : Run toml_value :=
  let* workspace := load_toml "Cargo.toml" in
  let* ws := getitem workspace "workspace" in
  let* package := getitem ws "package" in
  getitem package "version".

Definition main : Run Z :=
  let* workspace_version := read_workspace_version in
  check_crates workspace_version crates >>
  print success >>
  Py.ret 0.

(** [if __name__ == "__main__": sys.exit(main())] *)
Definition script : Run unit :=
  let* status := main in
  Py.sys_exit status.

(** A run of the checker from a fresh process: what it printed, what it
    did, and the exit status of the process. *)
Record report : Type := Report {
  printed : list string;
  trace : list event;
  status : Z
}.

Definition run : report :=
  let '(o, s) := script start in
  Report (stdout s) (events s) (Py.exit_status o).

(** *** The vocabulary of the specification, read off the files *)

(** The workspace version: field [workspace.package.version] of the root
    manifest, when the file is a manifest that has it. *)
Definition workspace_version : option toml_value :=
  match fs !! "Cargo.toml" with
  | Some (Manifest doc) =>
      match assoc "workspace" doc with
      | Some (TTable ws) =>
          match assoc "package" ws with
          | Some (TTable package) => assoc "version" package
          | _ => None
          end
      | _ => None
      end
  | _ => None
  end.

(** The version field of a member: field [package.version] of its manifest,
    when the file exists and is a manifest that has it. *)
Definition declared_version (crate : string) : option toml_value :=
  match fs !! crate_path crate with
  | Some (Manifest doc) =>
      match assoc "package" doc with
      | Some (TTable package) => assoc "version" package
      | _ => None
      end
  | _ => None
  end.

(** The member's manifest file does not exist. *)
Definition absent (crate : string) : bool :=
  match fs !! crate_path crate with Some _ => false | None => true end.

(** The version field is a reference to the workspace version. *)
Definition inherits (v : toml_value) : bool :=
  is_dict v && has_key "workspace" v.

(** The member is consistent: its version field is a reference to the
    workspace version, or equals it. *)
Definition consistent (wv : toml_value) (crate : string) : bool :=
  match declared_version crate with
  | Some v => inherits v || py_eq v wv
  | None => false
  end.

(** The member is skipped or consistent. *)
Definition passes (wv : toml_value) (crate : string) : bool :=
  absent crate || consistent wv crate.

(** What the loop prints and does for a member that passes. *)
Definition lines_of (crate : string) : list string :=
  if absent crate then [warning crate] else [].

Definition events_of (wv : toml_value) (crate : string) : list event :=
  match declared_version crate with
  | None => [EvExists (crate_path crate)]
  | Some v =>
      [EvExists (crate_path crate); EvOpen (crate_path crate)]
      ++ (if inherits v then [] else [EvCompare v wv])
  end.

(** A run examines a member when it probes or opens its manifest. *)
Definition examined (crate : string) (tr : list event) : Prop :=
  EvExists (crate_path crate) ∈ tr ∨ EvOpen (crate_path crate) ∈ tr.

End Checker.

(** *** Sample manifests and files *)

(** A stand-in for [repr] where a sample run needs one. *)
Definition sample_repr (v : toml_value) : string := "<repr>".

(** A root manifest with [[workspace.package] version = "..."]. *)
Definition root_manifest (version : string) : entry :=
  Manifest [("workspace", TTable [("package", TTable [("version", TStr version)])])].

(** A member manifest with [[package] name = "..."] and a version field. *)
Definition member_manifest (name : string) (version : toml_value) : entry :=
  Manifest [("package", TTable [("name", TStr name); ("version", version)])].

(** [version.workspace = true] *)
Definition workspace_ref : toml_value := TTable [("workspace", TBool true)].

(** Workspace at 1.2.0; the first member at 1.2.0, the second at 1.1.9,
    the others without a manifest. *)
Definition fs_mismatch : gmap string entry :=
  <["Cargo.toml" := root_manifest "1.2.0"]>
  (<[crate_path "leptos-motion-core" :=
       member_manifest "leptos-motion-core" (TStr "1.2.0")]>
  (<[crate_path "leptos-motion-dom" :=
       member_manifest "leptos-motion-dom" (TStr "1.1.9")]> ∅)).

(** Workspace at 1.2.0; the first member inherits the version, the second
    is at 1.2.0, the others have no manifest. *)
Definition fs_consistent : gmap string entry :=
  <["Cargo.toml" := root_manifest "1.2.0"]>
  (<[crate_path "leptos-motion-core" :=
       member_manifest "leptos-motion-core" workspace_ref]>
  (<[crate_path "leptos-motion-dom" :=
       member_manifest "leptos-motion-dom" (TStr "1.2.0")]> ∅)).

(** Workspace at 1.2.0 and no member manifest at all. *)
Definition fs_no_members : gmap string entry :=
  <["Cargo.toml" := root_manifest "1.2.0"]> ∅.

(** Workspace at 1.2.0; the first member has [version = { path = "VERSION" }],
    a table without the key [workspace]. *)
Definition fs_table : gmap string entry :=
  <["Cargo.toml" := root_manifest "1.2.0"]>
  (<[crate_path "leptos-motion-core" :=
       member_manifest "leptos-motion-core" (TTable [("path", TStr "VERSION")])]> ∅).

End VersionChecker.

(** ** The development servers *)

Module DevServer.

Local Open Scope py_scope.

(** The three servers: [examples/capability-showcase/serve.py],
    [examples/comprehensive-demo/serve.py] and
    [examples/webgl-demo/server.py]. *)
Inductive variant : Type :=
  | CapabilityShowcase
  | ComprehensiveDemo
  | WebglDemo.

(** *** Response headers

    The part of [http.server.BaseHTTPRequestHandler] the handlers build
    on: header lines collect in a buffer, and [end_headers] writes the
    buffer out as the header section of one response. *)
Inductive header_line : Type :=
  | StatusLine (code : Z) (message : string)
  | Header (keyword value : string).

(** What goes over the connection: header sections and bodies. *)
Inductive chunk : Type :=
  | HeaderSection (lines : list header_line)
  | Body (data : string).

Record handler : Type := Handler {
  request_version : string;
  headers_buffer : list header_line;
  wfile : list chunk
}.

Abbreviation Method := (Py.M handler).

(** A handler at the start of a request of the given protocol version. *)
Definition new_handler (version : string) : handler := Handler version [] [].

Definition buffer_line (l : header_line) : Method unit :=
  fun h =>
    (Py.Ret tt,
     if String.eqb (request_version h) "HTTP/0.9" then h
     else Handler (request_version h) (headers_buffer h ++ [l]) (wfile h)).

(** [BaseHTTPRequestHandler.send_response_only] *)
Definition send_response_only (code : Z) (message : string) : Method unit :=
  buffer_line (StatusLine code message).

(** [BaseHTTPRequestHandler.send_header] *)
Definition send_header (keyword value : string) : Method unit :=
  buffer_line (Header keyword value).

(** [BaseHTTPRequestHandler.end_headers], with its [flush_headers]. *)
Definition base_end_headers : Method unit :=
  fun h =>
    (Py.Ret tt,
     if String.eqb (request_version h) "HTTP/0.9" then h
     else Handler (request_version h) []
            (wfile h ++ [HeaderSection (headers_buffer h)])).

(** [self.wfile.write(data)] *)
Definition write (data : string) : Method unit :=
  fun h =>
    (Py.Ret tt,
     Handler (request_version h) (headers_buffer h) (wfile h ++ [Body data])).

(** [end_headers] as each server overrides it. *)
Definition end_headers (v : variant) : Method unit :=
  match v with
  | CapabilityShowcase =>
      send_header "Access-Control-Allow-Origin" "*" >>
      send_header "Access-Control-Allow-Methods" "GET, POST, OPTIONS" >>
      send_header "Access-Control-Allow-Headers" "Content-Type" >>
      base_end_headers
  | ComprehensiveDemo =>
      send_header "Access-Control-Allow-Origin" "*" >>
      send_header "Access-Control-Allow-Methods" "GET, POST, OPTIONS" >>
      send_header "Access-Control-Allow-Headers" "Content-Type" >>
      base_end_headers
  | WebglDemo =>
      send_header "Cross-Origin-Embedder-Policy" "require-corp" >>
      send_header "Cross-Origin-Opener-Policy" "same-origin" >>
      send_header "Access-Control-Allow-Origin" "*" >>
      send_header "Access-Control-Allow-Methods" "GET, POST, OPTIONS" >>
      send_header "Access-Control-Allow-Headers" "Content-Type" >>
      base_end_headers
  end.

(** The calls the request-handling code of the library ([do_GET],
    [do_HEAD], [send_error], ...) makes on the handler while it answers a
    request. Which calls it makes depends on the method and the path of
    the request; [self.end_headers()] reaches the override of the server. *)
Inductive call : Type :=
  | SendResponseOnly (code : Z) (message : string)
  | SendHeader (keyword value : string)
  | EndHeaders
  | WriteBody (data : string).

Definition perform (v : variant) (c : call) : Method unit :=
  match c with
  | SendResponseOnly code message => send_response_only code message
  | SendHeader keyword value => send_header keyword value
  | EndHeaders => end_headers v
  | WriteBody data => write data
  end.

(** Answering requests: the calls of the library, in order. *)
Definition answer (v : variant) (calls : list call) : Method unit :=
  Py.for_each calls (perform v).

(** The header sections among what was written. *)
Definition header_sections (out : list chunk) : list (list header_line) :=
  omap (fun c => match c with HeaderSection ls => Some ls | Body _ => None end) out.

(** The three CORS headers are in a header section. *)
Definition has_cors (section : list header_line) : Prop :=
  Header "Access-Control-Allow-Origin" "*" ∈ section ∧
  Header "Access-Control-Allow-Methods" "GET, POST, OPTIONS" ∈ section ∧
  Header "Access-Control-Allow-Headers" "Content-Type" ∈ section.

Global Instance header_line_eq_dec : EqDecision header_line.
Proof. solve_decision. Defined.

(** *** Logging

    The arguments of a log call are strings and integers. The library
    decodes the request line as ISO-8859-1, so a character of a string is
    a code point below 256. *)
Inductive pyarg : Type :=
  | AStr (s : string)
  | AInt (n : Z).

(** [needle in haystack] on strings. *)
Fixpoint contains (needle haystack : string) : bool :=
  if String.prefix needle haystack then true
  else
    match haystack with
    | EmptyString => false
    | String _ rest => contains needle rest
    end.

Definition squote : ascii := "'"%char.
Definition dquote : ascii := "034"%char.
Definition backslash : ascii := "\"%char.

Definition hex_digit (n : N) : ascii :=
  match n with
  | 0 => "0" | 1 => "1" | 2 => "2" | 3 => "3" | 4 => "4" | 5 => "5"
  | 6 => "6" | 7 => "7" | 8 => "8" | 9 => "9" | 10 => "a" | 11 => "b"
  | 12 => "c" | 13 => "d" | 14 => "e" | _ => "f"
  end%N%char.

(** The code points below 256 that [repr] leaves as they are. *)
Definition printable (n : N) : bool :=
  ((32 <=? n) && (n <=? 126) || (161 <=? n) && (n <=? 255) && negb (n =? 173))%N.

(** How [repr] writes one character of a string quoted with [q]. *)
Definition escape (q c : ascii) : string :=
  let n := N_of_ascii c in
  if Ascii.eqb c q || Ascii.eqb c backslash then String backslash (String c "")
  else if (n =? 9)%N then "\t"
  else if (n =? 10)%N then "\n"
  else if (n =? 13)%N then "\r"
  else if printable n then String c ""
  else String backslash
         (String "x" (String (hex_digit (n / 16)) (String (hex_digit (n mod 16)) ""))).

Fixpoint escape_all (q : ascii) (s : string) : string :=
  match s with
  | EmptyString => ""
  | String c rest => escape q c +:+ escape_all q rest
  end.

(** [repr(s)] for a string: single quotes, unless the string has a single
    quote and no double quote. *)
Definition repr_str (s : string) : string :=
  let q :=
    if contains (String squote "") s && negb (contains (String dquote "") s)
    then dquote else squote in
  String q (escape_all q s +:+ String q "").

Definition repr_arg (a : pyarg) : string :=
  match a with
  | AStr s => repr_str s
  | AInt n => pretty n
  end.

Fixpoint join_reprs (args : list pyarg) : string :=
  match args with
  | [] => ""
  | [a] => repr_arg a
  | a :: rest => repr_arg a +:+ ", " +:+ join_reprs rest
  end.

(** [str(args)] for the tuple of the arguments. *)
Definition str_tuple (args : list pyarg) : string :=
  match args with
  | [a] => "(" +:+ repr_arg a +:+ ",)"
  | _ => "(" +:+ join_reprs args +:+ ")"
  end.

Section Logging.

(** [BaseHTTPRequestHandler.log_message]: the line it writes to standard
    error, made of the client address, the time and [format % args]. *)
Variable base_log_message : string -> list pyarg -> string.

(** [MyHTTPRequestHandler.log_message] of the capability showcase: the
    lines it writes. *)
Definition log_message (format : string) (args : list pyarg) : list string :=
  if negb (contains "Broken pipe" (str_tuple args)) then
    [base_log_message format args]
  else
    [].

(** [BaseHTTPRequestHandler.log_request], which logs each request that
    gets a response: [code] and [size] are already strings here. *)
Definition log_request (requestline code size : string) : list string :=
  log_message (String dquote ("%s" +:+ String dquote " %s %s"))
    [AStr requestline; AStr code; AStr size].

End Logging.

(** *** Content types

    The table of [mimetypes] maps an extension to a type. What it holds
    when the interpreter starts depends on the version of Python and on
    the files of the system; [mimetypes.add_type] adds to it. *)

(** [mimetypes.add_type(type, ext)] *)
Definition add_type (type ext : string) (types_map : gmap string string)
    : gmap string string :=
  <[ext := type]> types_map.

(** What each server does to the table when its module is loaded. *)
Definition module_level (v : variant) (types_map : gmap string string)
    : gmap string string :=
  match v with
  | CapabilityShowcase => types_map
  | ComprehensiveDemo => add_type "application/wasm" ".wasm" types_map
  | WebglDemo => types_map
  end.

(** The part of [s] after the last [sep], when [sep] occurs in [s]. *)
Fixpoint after_last (sep : ascii) (s : string) : option string :=
  match s with
  | EmptyString => None
  | String c rest =>
      match after_last sep rest with
      | Some t => Some t
      | None => if Ascii.eqb c sep then Some rest else None
      end
  end.

Fixpoint skip_dots (s : string) : string :=
  match s with
  | String "."%char rest => skip_dots rest
  | _ => s
  end.

(** [posixpath.splitext(path)[1]]: the extension is what starts at the
    last dot of the last component of the path, the dots that lead the
    component apart. *)
Definition splitext (path : string) : string :=
  let name :=
    match after_last "/"%char path with Some t => t | None => path end in
  match after_last "."%char (skip_dots name) with
  | Some e => String "."%char e
  | None => ""
  end.

Definition lower_char (c : ascii) : ascii :=
  let n := N_of_ascii c in
  if ((65 <=? n) && (n <=? 90) || (192 <=? n) && (n <=? 214)
      || (216 <=? n) && (n <=? 222))%N
  then ascii_of_N (n + 32) else c.

(** [s.lower()] *)
Fixpoint lower (s : string) : string :=
  match s with
  | EmptyString => ""
  | String c rest => String (lower_char c) (lower rest)
  end.

(** [SimpleHTTPRequestHandler.extensions_map] *)
Definition extensions_map : gmap string string :=
  <[".gz" := "application/gzip"]>
  (<[".Z" := "application/octet-stream"]>
  (<[".bz2" := "application/x-bzip2"]>
  (<[".xz" := "application/x-xz"]> ∅))).

(** [mimetypes.guess_type(path)[0]] for an absolute path whose extension
    is neither an alias of an archive (the keys of [suffix_map]: [.svgz],
    [.tgz], [.taz], [.tz], [.tbz2], [.txz]) nor a compression (the keys of
    [encodings_map]: [.gz], [.Z], [.bz2], [.xz], [.br]). For those the
    library first rewrites or strips the suffix and types the file by
    the extension before it; that part is not modelled. *)
Definition mimetypes_guess_type (types_map : gmap string string) (path : string)
    : option string :=
  types_map !! lower (splitext path).

(** [SimpleHTTPRequestHandler.guess_type] *)
Definition guess_type (types_map : gmap string string) (path : string) : string :=
  let ext := splitext path in
  match extensions_map !! ext with
  | Some t => t
  | None =>
      let ext := lower ext in
      match extensions_map !! ext with
      | Some t => t
      | None =>
          match mimetypes_guess_type types_map path with
          | Some guess => guess
          | None => "application/octet-stream"
          end
      end
  end.

(** The [Content-type] a server gives to an existing file, on an
    interpreter that starts with the table [defaults]. *)
Definition content_type (v : variant) (defaults : gmap string string)
    (path : string) : string :=
  guess_type (module_level v defaults) path.

(** *** The server process *)

Inductive listener_state : Type :=
  | NotBound
  | Listening
  | Closed.

(** The state of a server process: its listening socket, its working
    directory once changed, and the lines printed on standard output. *)
Record process : Type := Process {
  listener : listener_state;
  cwd : option string;
  output : list string
}.

Definition boot : process := Process NotBound None [].

(** What a run of a server meets around it. [serve_forever] returns only
    by an exception: [ending] is the one that ends it, [KeyboardInterrupt]
    when the operator interrupts the server. *)
Record environment : Type := Environment {
  script_dir : string;      (* os.path.dirname(os.path.abspath(__file__)) *)
  listing : string;         (* str(os.listdir('.')) *)
  pkg_exists : bool;        (* os.path.exists('pkg') *)
  port_free : bool;         (* the listener can bind its port *)
  ending : Py.exn
}.

Abbreviation Proc := (Py.M process).

Definition PORT (v : variant) : Z :=
  match v with
  | CapabilityShowcase => 8000
  | ComprehensiveDemo => 8080
  | WebglDemo => 8000
  end.

Definition print (line : string) : Proc unit :=
  fun p => (Py.Ret tt, Process (listener p) (cwd p) (output p ++ [line])).

(** [os.chdir(dir)] *)
Definition chdir (dir : string) : Proc unit :=
  fun p => (Py.Ret tt, Process (listener p) (Some dir) (output p)).

Definition set_listener (l : listener_state) (p : process) : process :=
  Process l (cwd p) (output p).

(** [webbrowser.open(url)]: nothing of the process changes. *)
Definition webbrowser_open (url : string) : Proc unit := Py.ret tt.

Definition is_keyboard_interrupt (e : Py.exn) : bool :=
  match e with Py.KeyboardInterrupt => true | _ => false end.

Section Process.

Variable env : environment.

(** [with socketserver.TCPServer(("", PORT), Handler) as httpd: body]:
    the constructor binds the port or raises [OSError]; leaving the block
    closes the listener. *)
Definition with_tcp_server {A} (body : Proc A) : Proc A :=
  if port_free env then
    (fun p => (Py.Ret tt, set_listener Listening p)) >>
    Py.with_exit body (set_listener Closed)
  else
    Py.raise Py.OSError.

(** [httpd.serve_forever()] *)
Definition serve_forever : Proc unit := Py.raise (ending env).

Definition newline : string := String "010"%char "".

(** [examples/capability-showcase/serve.py] *)
Definition capability_showcase : Proc unit :=
  chdir (script_dir env) >>
  (if negb (pkg_exists env) then
     print "❌ Error: pkg directory not found!" >>
     print "Please run 'wasm-pack build --target web --out-dir pkg' first" >>
     Py.sys_exit 1
   else Py.ret tt) >>
  with_tcp_server
    (print "🚀 Leptos Motion Capability Showcase" >>
     print ("📡 Server running at http://localhost:" +:+ pretty (PORT CapabilityShowcase)) >>
     print "🌐 Opening browser..." >>
     print "⏹️  Press Ctrl+C to stop" >>
     webbrowser_open ("http://localhost:" +:+ pretty (PORT CapabilityShowcase)) >>
     Py.try_except serve_forever is_keyboard_interrupt
       (print (newline +:+ "👋 Server stopped"))).

(** [examples/comprehensive-demo/serve.py] *)
Definition comprehensive_demo : Proc unit :=
  chdir (script_dir env) >>
  with_tcp_server
    (print ("Serving at http://localhost:" +:+ pretty (PORT ComprehensiveDemo)) >>
     serve_forever).

(** [examples/webgl-demo/server.py] *)
Definition webgl_demo : Proc unit :=
  chdir (script_dir env) >>
  print ("Starting server in directory: " +:+ script_dir env) >>
  print ("Files in current directory: " +:+ listing env) >>
  print ("Server running at http://localhost:" +:+ pretty (PORT WebglDemo) +:+ "/") >>
  with_tcp_server
    (Py.try_except serve_forever is_keyboard_interrupt
       (print (newline +:+ "Server stopped.") >>
        Py.sys_exit 0)).

Definition program (v : variant) : Proc unit :=
  match v with
  | CapabilityShowcase => capability_showcase
  | ComprehensiveDemo => comprehensive_demo
  | WebglDemo => webgl_demo
  end.

(** A run of a server from a fresh process: the process at its end and its
    exit status. *)
Definition serve (v : variant) : process * Z :=
  let '(o, p) := program v boot in (p, Py.exit_status o).

End Process.

(** *** Sample inputs *)

(** A table of types as an interpreter may start with: no entry for
    [.wasm]. *)
Definition defaults_without_wasm : gmap string string :=
  <[".html" := "text/html"]>
  (<[".js" := "text/javascript"]>
  (<[".css" := "text/css"]> ∅)).

(** A run that the operator interrupts: the build output is there and the
    port is free. *)
Definition interrupted : environment :=
  Environment "/srv/demo" "['index.html', 'pkg']" true true Py.KeyboardInterrupt.

(** What the library calls to answer a [GET] with a file: status line,
    headers, end of headers, body. *)
Definition get_ok : list call :=
  [ SendResponseOnly 200 "OK";
    SendHeader "Server" "SimpleHTTP/0.6 Python/3.11.2";
    SendHeader "Content-type" "text/html";
    SendHeader "Content-Length" "5";
    EndHeaders;
    WriteBody "hello" ].

End DevServer.

(** * Facts about the version-consistency checker *)

Module CheckerFacts.
Import VersionChecker.
Local Open Scope list_scope.

Section Loop.

Variable py_repr : toml_value -> string.
Variable fs : gmap string entry.

Lemma state_eta (out out' : list string) (ev ev' : list event) :
  out = out' -> ev = ev' -> RunState out ev = RunState out' ev'.
Proof. intros -> ->. reflexivity. Qed.

(** A member whose manifest is absent: one warning, one probe, and the
    loop goes on. *)
Lemma check_crate_absent wv crate s :
  fs !! crate_path crate = None ->
  check_crate py_repr fs wv crate s =
    (Py.Ret tt,
     RunState (stdout s ++ [warning crate])
              (events s ++ [EvExists (crate_path crate)])).
Proof.
  intros Hnone. unfold check_crate, path_exists, print, log, Py.bind, Py.ret.
  simpl. rewrite Hnone. reflexivity.
Qed.

(** A member whose manifest declares a version field [v]. *)
Lemma check_crate_declared wv crate v s :
  declared_version fs crate = Some v ->
  check_crate py_repr fs wv crate s =
    let ev := events s ++ [EvExists (crate_path crate); EvOpen (crate_path crate)] in
    if inherits v then (Py.Ret tt, RunState (stdout s) ev)
    else if py_ne v wv then
      (Py.Raise (Py.SystemExit 1),
       RunState (stdout s ++ [mismatch py_repr crate v wv])
                (ev ++ [EvCompare v wv]))
    else (Py.Ret tt, RunState (stdout s) (ev ++ [EvCompare v wv])).
Proof.
  unfold declared_version. intros Hv.
  destruct (fs !! crate_path crate) as [[ | |doc]|] eqn:Hfile; try discriminate.
  destruct (assoc "package" doc) as [[ | | | |package]|] eqn:Hpkg; try discriminate.
  unfold check_crate, path_exists, load_toml, differs, print, log, getitem,
    Py.bind, Py.ret, Py.raise, Py.sys_exit.
  simpl. rewrite Hfile. simpl. rewrite Hpkg, Hv. simpl.
  unfold inherits.
  destruct (is_dict v && has_key "workspace" v); simpl.
  - f_equal. apply state_eta; [reflexivity|]. by rewrite <- app_assoc.
  - destruct (py_ne v wv); simpl; f_equal; apply state_eta; try reflexivity;
      by rewrite <- !app_assoc.
Qed.

(** [py_ne] on a literal: the values are unequal exactly when the other
    one is not the same literal. *)
Lemma py_ne_literal s wv : py_ne (TStr s) wv = true <-> TStr s <> wv.
Proof.
  unfold py_ne. destruct wv as [t| | | | ]; simpl;
    try (split; [intros _; discriminate | reflexivity]).
  rewrite negb_true_iff, String.eqb_neq. split; congruence.
Qed.

(** A dict never equals a string. *)
Lemma py_ne_table_string fields w : py_ne (TTable fields) (TStr w) = true.
Proof. reflexivity. Qed.

(** A member that passes: the loop goes on, having printed [lines_of] and
    done [events_of]. *)
Lemma check_crate_passes wv crate s :
  passes fs wv crate = true ->
  check_crate py_repr fs wv crate s =
    (Py.Ret tt,
     RunState (stdout s ++ lines_of fs crate)
              (events s ++ events_of fs wv crate)).
Proof.
  unfold passes, consistent, lines_of, events_of, absent.
  destruct (fs !! crate_path crate) as [e|] eqn:Hfile; simpl.
  - destruct (declared_version fs crate) as [v|] eqn:Hv; [|discriminate].
    intros Hok. rewrite (check_crate_declared _ _ _ _ Hv). simpl.
    destruct (inherits v); simpl.
    + f_equal. apply state_eta; [by rewrite app_nil_r | reflexivity].
    + simpl in Hok. unfold py_ne. rewrite Hok. simpl.
      f_equal. apply state_eta; [by rewrite app_nil_r | by rewrite <- app_assoc].
  - intros _. rewrite (check_crate_absent _ _ _ Hfile).
    unfold declared_version. rewrite Hfile. reflexivity.
Qed.

Lemma check_crates_cons wv crate rest s :
  check_crates py_repr fs wv (crate :: rest) s =
    match check_crate py_repr fs wv crate s with
    | (Py.Ret _, s') => check_crates py_repr fs wv rest s'
    | (Py.Raise e, s') => (Py.Raise e, s')
    end.
Proof. reflexivity. Qed.

(** Members that all pass: the loop ends normally. *)
Lemma check_crates_pass wv members s :
  forallb (passes fs wv) members = true ->
  check_crates py_repr fs wv members s =
    (Py.Ret tt,
     RunState (stdout s ++ flat_map (lines_of fs) members)
              (events s ++ flat_map (events_of fs wv) members)).
Proof.
  revert s. induction members as [|crate rest IH]; intros s Hall; simpl.
  - unfold check_crates, Py.ret. simpl. rewrite !app_nil_r. by destruct s.
  - simpl in Hall. apply andb_true_iff in Hall as [Hc Hrest].
    rewrite check_crates_cons, (check_crate_passes _ _ _ Hc), (IH _ Hrest).
    simpl. f_equal. apply state_eta; by rewrite <- app_assoc.
Qed.

(** The loop over [pre ++ post] is the loop over [pre], then over [post]
    unless the first one ended the run. *)
Lemma check_crates_app wv pre post s :
  check_crates py_repr fs wv (pre ++ post) s =
    match check_crates py_repr fs wv pre s with
    | (Py.Ret _, s') => check_crates py_repr fs wv post s'
    | (Py.Raise e, s') => (Py.Raise e, s')
    end.
Proof.
  revert s. induction pre as [|crate rest IH]; intros s; [reflexivity|].
  change ((crate :: rest) ++ post) with (crate :: (rest ++ post)).
  rewrite !check_crates_cons.
  destruct (check_crate py_repr fs wv crate s) as [[[]|e] s']; [apply IH | reflexivity].
Qed.

(** Reading the workspace version of a root manifest that has one. *)
Lemma read_workspace_version_ok wv s :
  workspace_version fs = Some wv ->
  read_workspace_version fs s =
    (Py.Ret wv, RunState (stdout s) (events s ++ [EvOpen "Cargo.toml"])).
Proof.
  unfold workspace_version. intros Hv.
  destruct (fs !! "Cargo.toml") as [[ | |doc]|] eqn:Hfile; try discriminate.
  destruct (assoc "workspace" doc) as [[ | | | |ws]|] eqn:Hws; try discriminate.
  destruct (assoc "package" ws) as [[ | | | |package]|] eqn:Hpkg; try discriminate.
  unfold read_workspace_version, load_toml, log, getitem, Py.bind, Py.ret.
  simpl. rewrite Hfile. simpl. rewrite Hws. simpl. rewrite Hpkg, Hv. reflexivity.
Qed.

(** A run, once the workspace version is read, is the loop from the state
    after that read, then the success line. *)
Lemma run_unfold wv :
  workspace_version fs = Some wv ->
  run py_repr fs =
    match check_crates py_repr fs wv crates (RunState [] [EvOpen "Cargo.toml"]) with
    | (Py.Ret _, s) => Report (stdout s ++ [success]) (events s) 0
    | (Py.Raise e, s) => Report (stdout s) (events s) (Py.exit_status (@Py.Raise unit e))
    end.
Proof.
  intros Hv. unfold run, script, main, Py.bind.
  rewrite (read_workspace_version_ok _ _ Hv). simpl.
  destruct (check_crates _ _ _ _ _) as [[[]|e] s]; reflexivity.
Qed.

(** The events of a member that passes concern its own manifest. *)
Lemma events_of_own wv crate e :
  e ∈ events_of fs wv crate ->
  e = EvExists (crate_path crate) \/ e = EvOpen (crate_path crate)
  \/ exists v, e = EvCompare v wv.
Proof.
  unfold events_of. destruct (declared_version fs crate) as [v|].
  - destruct (inherits v); simpl; rewrite ?elem_of_cons, ?elem_of_nil;
      intros H; repeat destruct H as [H|H]; eauto; contradiction.
  - rewrite elem_of_cons, elem_of_nil. intros [H|[]]; eauto.
Qed.

(** The loop depends on the files through the manifests of the members
    it is given. *)
Lemma check_crate_agree fs' wv crate :
  fs !! crate_path crate = fs' !! crate_path crate ->
  check_crate py_repr fs wv crate = check_crate py_repr fs' wv crate.
Proof.
  intros Heq. unfold check_crate, path_exists, load_toml. rewrite Heq. reflexivity.
Qed.

Lemma check_crates_agree fs' wv members :
  (forall crate, crate ∈ members -> fs !! crate_path crate = fs' !! crate_path crate) ->
  check_crates py_repr fs wv members = check_crates py_repr fs' wv members.
Proof.
  unfold check_crates. induction members as [|crate rest IH]; intros Heq; [reflexivity|].
  simpl. rewrite IH by (intros c Hc; apply Heq; by right).
  rewrite (check_crate_agree fs' wv crate) by (apply Heq; by left).
  reflexivity.
Qed.

End Loop.

Lemma crate_paths_distinct : NoDup ("Cargo.toml" :: map crate_path crates).
Proof. apply (bool_decide_unpack _). vm_compute. reflexivity. Qed.

End CheckerFacts.
Module CheckerTheorems.
Import VersionChecker CheckerFacts.
Local Open Scope list_scope.

(** The manifests of the members after [crate] in the list are other
    files than the root manifest and the manifests up to [crate]. *)
Lemma later_path_fresh pre crate post later :
  crates = pre ++ crate :: post ->
  later ∈ post ->
  crate_path later <> "Cargo.toml" /\
  forall c, c ∈ pre ++ [crate] -> crate_path later <> crate_path c.
Proof.
  intros Hsplit Hlater. pose proof crate_paths_distinct as Hnd.
  rewrite Hsplit, map_app in Hnd. simpl in Hnd.
  apply NoDup_cons in Hnd as [Hroot Hnd].
  apply NoDup_app in Hnd as (_ & Hpre & Hpost).
  apply NoDup_cons in Hpost as [Hcrate _].
  assert (Hin : crate_path later ∈ map crate_path post)
    by (apply list_elem_of_fmap; eauto).
  split.
  - intros Heq. apply Hroot. rewrite <- Heq.
    apply elem_of_app. right. by right.
  - intros c [Hc|Hc]%elem_of_app Heq.
    + apply (Hpre (crate_path c)); [apply list_elem_of_fmap; eauto|].
      rewrite <- Heq. by right.
    + apply list_elem_of_singleton in Hc as ->. apply Hcrate. by rewrite <- Heq.
Qed.

(** The run that comes to a member whose version field is neither a
    reference to the workspace version nor equal to it: the members before
    it pass, the mismatch is the last line printed, the status is 1, and
    no member after it is examined. *)
Lemma run_first_mismatch py_repr fs wv pre crate post v :
  workspace_version fs = Some wv ->
  crates = pre ++ crate :: post ->
  forallb (passes fs wv) pre = true ->
  declared_version fs crate = Some v ->
  inherits v = false ->
  py_ne v wv = true ->
  run py_repr fs =
    Report
      (flat_map (lines_of fs) pre ++ [mismatch py_repr crate v wv])
      (EvOpen "Cargo.toml" :: flat_map (events_of fs wv) pre ++
         [EvExists (crate_path crate); EvOpen (crate_path crate); EvCompare v wv])
      1
  /\ forall later, later ∈ post -> ~ examined later (trace (run py_repr fs)).
Proof.
  intros Hws Hsplit Hpre Hv Hinh Hne.
  assert (Hrun : run py_repr fs =
    Report
      (flat_map (lines_of fs) pre ++ [mismatch py_repr crate v wv])
      (EvOpen "Cargo.toml" :: flat_map (events_of fs wv) pre ++
         [EvExists (crate_path crate); EvOpen (crate_path crate); EvCompare v wv])
      1).
  { rewrite (run_unfold _ _ _ Hws), Hsplit, check_crates_app.
    rewrite (check_crates_pass _ _ _ _ _ Hpre). simpl.
    rewrite check_crates_cons, (check_crate_declared _ _ _ _ _ _ Hv). simpl.
    rewrite Hinh, Hne. simpl. f_equal. by rewrite <- app_assoc. }
  split; [exact Hrun|].
  intros later Hlater. rewrite Hrun. simpl.
  destruct (later_path_fresh _ _ _ _ Hsplit Hlater) as [Hroot Hfresh].
  assert (Hown : forall e,
    e ∈ EvOpen "Cargo.toml" :: flat_map (events_of fs wv) pre ++
         [EvExists (crate_path crate); EvOpen (crate_path crate); EvCompare v wv] ->
    e <> EvExists (crate_path later) /\ e <> EvOpen (crate_path later)).
  { intros e [->|He]%elem_of_cons; [split; congruence|].
    apply elem_of_app in He as [He|He].
    - apply list_elem_of_In, in_flat_map in He as (c & Hc & He).
      apply list_elem_of_In in Hc, He.
      assert (Hne' : crate_path later <> crate_path c)
        by (apply Hfresh, elem_of_app; by left).
      apply events_of_own in He as [->|[->|[u ->]]]; split; congruence.
    - assert (Hne' : crate_path later <> crate_path crate)
        by (apply Hfresh, elem_of_app; right; by left).
      rewrite !elem_of_cons, elem_of_nil in He.
      destruct He as [->|[->|[->|[]]]]; split; congruence. }
  intros [Hex|Hex]; apply Hown in Hex as [H1 H2]; congruence.
Qed.

(** C1. In a run that comes to a listed member whose manifest exists and
    declares a literal version string different from the workspace
    version (every member before it in the list being skipped or
    consistent), the checker prints, as its last line, the mismatch
    message that names this member, its literal version and the workspace
    version; the process exits with status 1; and no member later in the
    hardcoded list is examined. *)
Theorem C1_first_mismatch_aborts py_repr fs wv pre crate post literal :
  workspace_version fs = Some wv ->
  crates = pre ++ crate :: post ->
  forallb (passes fs wv) pre = true ->
  declared_version fs crate = Some (TStr literal) ->
  TStr literal <> wv ->
  run py_repr fs =
    Report
      (flat_map (lines_of fs) pre ++
         ["Version mismatch: " +:+ crate +:+ " has " +:+ literal
            +:+ ", workspace has " +:+ py_str py_repr wv])
      (EvOpen "Cargo.toml" :: flat_map (events_of fs wv) pre ++
         [EvExists (crate_path crate); EvOpen (crate_path crate);
          EvCompare (TStr literal) wv])
      1
  /\ forall later, later ∈ post -> ~ examined later (trace (run py_repr fs)).
Proof.
  intros Hws Hsplit Hpre Hv Hne.
  apply py_ne_literal in Hne.
  exact (run_first_mismatch py_repr fs wv pre crate post (TStr literal)
           Hws Hsplit Hpre Hv eq_refl Hne).
Qed.

Lemma C1_first_mismatch_aborts_witness :
  run sample_repr fs_mismatch =
    Report
      ["Version mismatch: leptos-motion-dom has 1.1.9, workspace has 1.2.0"]
      [EvOpen "Cargo.toml";
       EvExists "crates/leptos-motion-core/Cargo.toml";
       EvOpen "crates/leptos-motion-core/Cargo.toml";
       EvCompare (TStr "1.2.0") (TStr "1.2.0");
       EvExists "crates/leptos-motion-dom/Cargo.toml";
       EvOpen "crates/leptos-motion-dom/Cargo.toml";
       EvCompare (TStr "1.1.9") (TStr "1.2.0")]
      1
  /\ ~ examined "leptos-motion-layout" (trace (run sample_repr fs_mismatch)).
Proof.
  destruct (C1_first_mismatch_aborts sample_repr fs_mismatch (TStr "1.2.0")
              ["leptos-motion-core"] "leptos-motion-dom"
              ["leptos-motion-gestures"; "leptos-motion-layout";
               "leptos-motion-scroll"; "leptos-motion-macros"; "leptos-motion"]
              "1.1.9")
    as [Hrun Hlater]; [reflexivity | reflexivity | reflexivity | reflexivity
                      | discriminate | ].
  split; [exact Hrun | apply Hlater; set_solver].
Defined.

(** C3. A member whose version field is a structured reference to the
    workspace version (a table with the key [workspace]) is treated as
    consistent whatever the workspace version is: the checker probes and
    opens its manifest, prints nothing, compares nothing, and goes on
    with the next member; the member counts as passing. *)
Theorem C3_workspace_reference_is_consistent
    py_repr fs wv crate rest fields s :
  declared_version fs crate = Some (TTable fields) ->
  is_Some (assoc "workspace" fields) ->
  check_crates py_repr fs wv (crate :: rest) s =
    check_crates py_repr fs wv rest
      (RunState (stdout s)
         (events s ++ [EvExists (crate_path crate); EvOpen (crate_path crate)]))
  /\ passes fs wv crate = true.
Proof.
  intros Hv [w Hw].
  assert (Hinh : inherits (TTable fields) = true)
    by (unfold inherits; simpl; by rewrite Hw).
  split.
  - rewrite check_crates_cons, (check_crate_declared _ _ _ _ _ _ Hv). simpl.
    by rewrite Hinh.
  - unfold passes, consistent. rewrite Hv, Hinh. simpl. apply orb_true_r.
Qed.

Lemma C3_workspace_reference_is_consistent_witness :
  check_crates sample_repr fs_consistent (TStr "9.9.9")
    ["leptos-motion-core"] start =
    (Py.Ret tt,
     RunState []
       [EvExists "crates/leptos-motion-core/Cargo.toml";
        EvOpen "crates/leptos-motion-core/Cargo.toml"])
  /\ passes fs_consistent (TStr "9.9.9") "leptos-motion-core" = true.
Proof.
  exact (C3_workspace_reference_is_consistent sample_repr fs_consistent
           (TStr "9.9.9") "leptos-motion-core" [] [("workspace", TBool true)]
           start eq_refl (ex_intro _ (TBool true) eq_refl)).
Defined.



(** C7. The checker is a function of the files it reads: two runs that
    find the same root manifest and the same manifest, or none, for each
    listed member print the same lines, do the same things and end with
    the same exit status, whatever else differs on disk. *)
Theorem C7_run_depends_on_manifests_only py_repr fs fs' :
  fs !! "Cargo.toml" = fs' !! "Cargo.toml" ->
  (forall crate, crate ∈ crates -> fs !! crate_path crate = fs' !! crate_path crate) ->
  run py_repr fs = run py_repr fs'
  /\ printed (run py_repr fs) = printed (run py_repr fs')
  /\ status (run py_repr fs) = status (run py_repr fs').
Proof.
  intros Hroot Hmembers.
  assert (Hrun : run py_repr fs = run py_repr fs').
  { assert (Hread : read_workspace_version fs = read_workspace_version fs')
      by (unfold read_workspace_version, load_toml; by rewrite Hroot).
    assert (Hmain : main py_repr fs start = main py_repr fs' start).
    { unfold main, Py.bind. rewrite Hread.
      destruct (read_workspace_version fs' start) as [[wv|e] s]; [|reflexivity].
      by rewrite (check_crates_agree py_repr fs fs' wv crates Hmembers). }
    unfold run, script, Py.bind. by rewrite Hmain. }
  rewrite Hrun. auto.
Qed.

Lemma C7_run_depends_on_manifests_only_witness :
  run sample_repr fs_mismatch =
    run sample_repr (<["README.md" := Malformed]> fs_mismatch)
  /\ printed (run sample_repr fs_mismatch) =
       printed (run sample_repr (<["README.md" := Malformed]> fs_mismatch))
  /\ status (run sample_repr fs_mismatch) =
       status (run sample_repr (<["README.md" := Malformed]> fs_mismatch)).
Proof.
  apply (C7_run_depends_on_manifests_only sample_repr fs_mismatch
           (<["README.md" := Malformed]> fs_mismatch)).
  - reflexivity.
  - intros crate Hin. symmetry. apply lookup_insert_ne.
    unfold crates in Hin. rewrite !elem_of_cons, elem_of_nil in Hin.
    destruct Hin as [->|[->|[->|[->|[->|[->|[->|[]]]]]]]]; discriminate.
Defined.

(** C8. A member whose version field is a table without the key
    [workspace] is not taken for a reference to the workspace version: the
    checker compares the table with the workspace version string, they are
    unequal, and the run that comes to this member (every member before it
    being skipped or consistent) prints the mismatch message for it as its
    last line and exits with status 1. *)
Theorem C8_table_without_workspace_key_is_a_mismatch
    py_repr fs workspace pre crate post fields :
  workspace_version fs = Some (TStr workspace) ->
  crates = pre ++ crate :: post ->
  forallb (passes fs (TStr workspace)) pre = true ->
  declared_version fs crate = Some (TTable fields) ->
  assoc "workspace" fields = None ->
  inherits (TTable fields) = false
  /\ py_ne (TTable fields) (TStr workspace) = true
  /\ run py_repr fs =
       Report
         (flat_map (lines_of fs) pre ++
            ["Version mismatch: " +:+ crate +:+ " has " +:+ py_repr (TTable fields)
               +:+ ", workspace has " +:+ workspace])
         (EvOpen "Cargo.toml" :: flat_map (events_of fs (TStr workspace)) pre ++
            [EvExists (crate_path crate); EvOpen (crate_path crate);
             EvCompare (TTable fields) (TStr workspace)])
         1.
Proof.
  intros Hws Hsplit Hpre Hv Hkey.
  assert (Hinh : inherits (TTable fields) = false)
    by (unfold inherits; simpl; by rewrite Hkey).
  repeat split; [exact Hinh|].
  exact (proj1 (run_first_mismatch py_repr fs (TStr workspace) pre crate post
                  (TTable fields) Hws Hsplit Hpre Hv Hinh eq_refl)).
Qed.

Lemma C8_table_without_workspace_key_is_a_mismatch_witness :
  inherits (TTable [("path", TStr "VERSION")]) = false
  /\ py_ne (TTable [("path", TStr "VERSION")]) (TStr "1.2.0") = true
  /\ run sample_repr fs_table =
       Report
         ["Version mismatch: leptos-motion-core has <repr>, workspace has 1.2.0"]
         [EvOpen "Cargo.toml";
          EvExists "crates/leptos-motion-core/Cargo.toml";
          EvOpen "crates/leptos-motion-core/Cargo.toml";
          EvCompare (TTable [("path", TStr "VERSION")]) (TStr "1.2.0")]
         1.
Proof.
  exact (C8_table_without_workspace_key_is_a_mismatch sample_repr fs_table
           "1.2.0" [] "leptos-motion-core"
           ["leptos-motion-dom"; "leptos-motion-gestures"; "leptos-motion-layout";
            "leptos-motion-scroll"; "leptos-motion-macros"; "leptos-motion"]
           [("path", TStr "VERSION")] eq_refl eq_refl eq_refl eq_refl eq_refl).
Defined.

(** Members that are all absent: a warning and a probe for each. *)
Lemma all_absent_lines_events fs wv members :
  (forall crate, crate ∈ members -> fs !! crate_path crate = None) ->
  forallb (passes fs wv) members = true
  /\ flat_map (lines_of fs) members = map warning members
  /\ flat_map (events_of fs wv) members =
       map (fun crate => EvExists (crate_path crate)) members.
Proof.
  induction members as [|crate rest IH]; intros Hnone; [done|].
  destruct IH as (Hp & Hl & He); [intros c Hc; apply Hnone; by right|].
  assert (Hc : fs !! crate_path crate = None) by (apply Hnone; by left).
  simpl. rewrite Hp, Hl, He.
  unfold passes, lines_of, events_of, absent, declared_version. rewrite Hc.
  done.
Qed.

(** C9. When the manifest of every listed member is absent, the checker
    prints one warning per member, in the order of the list, then the
    success message; it probes each manifest, opens none and compares no
    version; and the process exits with status 0. *)
Theorem C9_all_members_absent_is_success py_repr fs wv :
  workspace_version fs = Some wv ->
  (forall crate, crate ∈ crates -> fs !! crate_path crate = None) ->
  run py_repr fs =
    Report
      (map warning crates ++ ["All versions are consistent!"])
      (EvOpen "Cargo.toml" :: map (fun crate => EvExists (crate_path crate)) crates)
      0
  /\ forall v w, EvCompare v w ∉ trace (run py_repr fs).
Proof.
  intros Hws Hnone.
  destruct (all_absent_lines_events fs wv crates Hnone) as (Hp & Hl & He).
  assert (Hrun : run py_repr fs =
    Report (map warning crates ++ ["All versions are consistent!"])
      (EvOpen "Cargo.toml" :: map (fun crate => EvExists (crate_path crate)) crates)
      0).
  { rewrite (run_unfold _ _ _ Hws), (check_crates_pass _ _ _ _ _ Hp), Hl, He.
    reflexivity. }
  split; [exact Hrun|].
  intros v w. rewrite Hrun. cbn [trace].
  intros [Heq|Hin]%elem_of_cons; [discriminate|].
  apply list_elem_of_fmap in Hin as (c & Heq & _). discriminate.
Qed.

Lemma C9_all_members_absent_is_success_witness :
  run sample_repr fs_no_members =
    Report
      ["Warning: crates/leptos-motion-core/Cargo.toml not found, skipping...";
       "Warning: crates/leptos-motion-dom/Cargo.toml not found, skipping...";
       "Warning: crates/leptos-motion-gestures/Cargo.toml not found, skipping...";
       "Warning: crates/leptos-motion-layout/Cargo.toml not found, skipping...";
       "Warning: crates/leptos-motion-scroll/Cargo.toml not found, skipping...";
       "Warning: crates/leptos-motion-macros/Cargo.toml not found, skipping...";
       "Warning: crates/leptos-motion/Cargo.toml not found, skipping...";
       "All versions are consistent!"]
      [EvOpen "Cargo.toml";
       EvExists "crates/leptos-motion-core/Cargo.toml";
       EvExists "crates/leptos-motion-dom/Cargo.toml";
       EvExists "crates/leptos-motion-gestures/Cargo.toml";
       EvExists "crates/leptos-motion-layout/Cargo.toml";
       EvExists "crates/leptos-motion-scroll/Cargo.toml";
       EvExists "crates/leptos-motion-macros/Cargo.toml";
       EvExists "crates/leptos-motion/Cargo.toml"]
      0.
Proof.
  apply (C9_all_members_absent_is_success sample_repr fs_no_members (TStr "1.2.0")).
  - reflexivity.
  - intros crate Hin.
    unfold crates in Hin. rewrite !elem_of_cons, elem_of_nil in Hin.
    destruct Hin as [->|[->|[->|[->|[->|[->|[->|[]]]]]]]]; reflexivity.
Defined.

End CheckerTheorems.

(** * Facts about the development servers *)

Module ServerFacts.
Import DevServer.
Local Open Scope list_scope.

(** ** Response headers *)

(** Every header section written so far has the CORS headers. *)
Definition cors_everywhere (h : handler) : Prop :=
  Forall has_cors (header_sections (wfile h)).

Lemma header_sections_app out out' :
  header_sections (out ++ out') = header_sections out ++ header_sections out'.
Proof. unfold header_sections. apply omap_app. Qed.

(** [end_headers] of a server leaves the handler as it is on an HTTP/0.9
    request, and otherwise writes the buffer with its headers added. *)
Lemma end_headers_spec v h :
  exists extra,
    end_headers v h =
      (Py.Ret tt,
       if String.eqb (request_version h) "HTTP/0.9" then h
       else Handler (request_version h) []
              (wfile h ++ [HeaderSection (headers_buffer h ++ extra)]))
    /\ has_cors extra.
Proof.
  destruct v.
  - exists [Header "Access-Control-Allow-Origin" "*";
            Header "Access-Control-Allow-Methods" "GET, POST, OPTIONS";
            Header "Access-Control-Allow-Headers" "Content-Type"].
    split; [|unfold has_cors; set_solver].
    unfold end_headers, send_header, buffer_line, base_end_headers, Py.bind.
    destruct h as [ver buf out]. simpl.
    destruct (String.eqb ver "HTTP/0.9") eqn:Hver;
      repeat (simpl; rewrite ?Hver).
    + reflexivity.
    + by rewrite <- !app_assoc.
  - exists [Header "Access-Control-Allow-Origin" "*";
            Header "Access-Control-Allow-Methods" "GET, POST, OPTIONS";
            Header "Access-Control-Allow-Headers" "Content-Type"].
    split; [|unfold has_cors; set_solver].
    unfold end_headers, send_header, buffer_line, base_end_headers, Py.bind.
    destruct h as [ver buf out]. simpl.
    destruct (String.eqb ver "HTTP/0.9") eqn:Hver;
      repeat (simpl; rewrite ?Hver).
    + reflexivity.
    + by rewrite <- !app_assoc.
  - exists [Header "Cross-Origin-Embedder-Policy" "require-corp";
            Header "Cross-Origin-Opener-Policy" "same-origin";
            Header "Access-Control-Allow-Origin" "*";
            Header "Access-Control-Allow-Methods" "GET, POST, OPTIONS";
            Header "Access-Control-Allow-Headers" "Content-Type"].
    split; [|unfold has_cors; set_solver].
    unfold end_headers, send_header, buffer_line, base_end_headers, Py.bind.
    destruct h as [ver buf out]. simpl.
    destruct (String.eqb ver "HTTP/0.9") eqn:Hver;
      repeat (simpl; rewrite ?Hver).
    + reflexivity.
    + by rewrite <- !app_assoc.
Qed.

Lemma has_cors_app_r buf extra : has_cors extra -> has_cors (buf ++ extra).
Proof. unfold has_cors. intros (H1 & H2 & H3). set_solver. Qed.

(** A call of the library never raises and keeps [cors_everywhere]. *)
Lemma perform_keeps v c h :
  cors_everywhere h ->
  exists h', perform v c h = (Py.Ret tt, h') /\ cors_everywhere h'.
Proof.
  intros Hinv. destruct c as [code message|keyword value| |data]; simpl.
  - unfold send_response_only, buffer_line. eexists. split; [reflexivity|].
    destruct (String.eqb _ _); exact Hinv.
  - unfold send_header, buffer_line. eexists. split; [reflexivity|].
    destruct (String.eqb _ _); exact Hinv.
  - destruct (end_headers_spec v h) as (extra & -> & Hextra).
    eexists. split; [reflexivity|].
    destruct (String.eqb _ _); [exact Hinv|].
    unfold cors_everywhere. simpl. rewrite header_sections_app.
    apply Forall_app. split; [exact Hinv|].
    simpl. apply Forall_cons. split; [by apply has_cors_app_r | apply Forall_nil_2].
  - unfold write. eexists. split; [reflexivity|].
    unfold cors_everywhere. simpl. rewrite header_sections_app. simpl.
    by rewrite app_nil_r.
Qed.

Lemma answer_keeps v calls h :
  cors_everywhere h ->
  exists h', answer v calls h = (Py.Ret tt, h') /\ cors_everywhere h'.
Proof.
  revert h. induction calls as [|c rest IH]; intros h Hinv.
  - exists h. by split.
  - destruct (perform_keeps v c h Hinv) as (h1 & Hc & Hinv1).
    destruct (IH h1 Hinv1) as (h2 & Hrest & Hinv2).
    exists h2. split; [|exact Hinv2].
    unfold answer in *. simpl. unfold Py.bind. by rewrite Hc.
Qed.


(** ** Strings *)

Local Arguments String.append : simpl nomatch.

Lemma app_assoc_s (a b c : string) : (a +:+ b) +:+ c = a +:+ (b +:+ c).
Proof. induction a as [|x a IH]; simpl; [reflexivity | by rewrite IH]. Qed.

Lemma app_nil_r_s (a : string) : a +:+ "" = a.
Proof. induction a as [|x a IH]; simpl; [reflexivity | by rewrite IH]. Qed.

(** [needle] occurs in [haystack]. *)
Definition occurs (needle haystack : string) : Prop :=
  exists before after, haystack = before +:+ needle +:+ after.

Lemma prefix_spec needle haystack :
  String.prefix needle haystack = true <-> exists after, haystack = needle +:+ after.
Proof.
  revert haystack. induction needle as [|c needle IH]; intros haystack.
  - split; [intros _; by exists haystack | by destruct haystack].
  - destruct haystack as [|d haystack]; simpl.
    + split; [discriminate | intros [after Heq]; discriminate].
    + destruct (ascii_dec c d) as [->|Hne].
      * rewrite IH. split; intros [after Heq]; exists after; congruence.
      * split; [discriminate | intros [after Heq]; congruence].
Qed.

(** [contains] decides [occurs]. *)
Lemma contains_spec needle haystack :
  contains needle haystack = true <-> occurs needle haystack.
Proof.
  induction haystack as [|c haystack IH]; cbn [contains].
  - destruct (String.prefix needle "") eqn:Hp.
    + split; [intros _ | reflexivity].
      apply prefix_spec in Hp as [after Heq]. by exists "", after.
    + split; [discriminate|]. intros ([|x before] & after & Heq); [|discriminate].
      simpl in Heq. assert (String.prefix needle "" = true)
        by (apply prefix_spec; eauto). congruence.
  - destruct (String.prefix needle (String c haystack)) eqn:Hp.
    + split; [intros _ | reflexivity].
      apply prefix_spec in Hp as [after Heq]. by exists "", after.
    + rewrite IH. split.
      * intros (before & after & ->). by exists (String c before), after.
      * intros ([|x before] & after & Heq); simpl in Heq.
        -- assert (String.prefix needle (String c haystack) = true)
             by (apply prefix_spec; eauto). congruence.
        -- injection Heq as _ ->. by exists before, after.
Qed.

Lemma occurs_app_r needle s left_part :
  occurs needle s -> occurs needle (left_part +:+ s).
Proof.
  intros (before & after & ->). exists (left_part +:+ before), after.
  by rewrite app_assoc_s.
Qed.

Lemma occurs_app_l needle s right_part :
  occurs needle s -> occurs needle (s +:+ right_part).
Proof.
  intros (before & after & ->). exists before, (after +:+ right_part).
  by rewrite !app_assoc_s.
Qed.

(** ** Logging *)

Lemma escape_all_app q a b :
  escape_all q (a +:+ b) = escape_all q a +:+ escape_all q b.
Proof.
  induction a as [|c a IH]; simpl; [reflexivity|]. by rewrite IH, app_assoc_s.
Qed.

(** Quoting keeps an occurrence of [Broken pipe]: none of its characters
    is escaped. *)
Lemma quoted_keeps_broken_pipe q before after :
  q = squote \/ q = dquote ->
  occurs "Broken pipe"
    (String q (escape_all q (before +:+ "Broken pipe" +:+ after) +:+ String q "")).
Proof.
  intros Hq.
  assert (Hkeep : escape_all q "Broken pipe" = "Broken pipe")
    by (destruct Hq as [->| ->]; reflexivity).
  rewrite !escape_all_app, Hkeep.
  exists (String q (escape_all q before)), (escape_all q after +:+ String q "").
  simpl. by rewrite !app_assoc_s.
Qed.

Lemma repr_str_keeps_broken_pipe s :
  occurs "Broken pipe" s -> occurs "Broken pipe" (repr_str s).
Proof.
  intros (before & after & ->). unfold repr_str. cbv zeta.
  destruct (_ && _); apply quoted_keeps_broken_pipe; auto.
Qed.

Lemma join_reprs_occurs a args :
  a ∈ args -> occurs (repr_arg a) (join_reprs args).
Proof.
  induction args as [|b rest IH]; intros Hin; [by apply elem_of_nil in Hin|].
  apply elem_of_cons in Hin as [->|Hin].
  - destruct rest as [|c rest]; simpl.
    + exists "", "". simpl. by rewrite app_nil_r_s.
    + exists "", (", " +:+ join_reprs (c :: rest)). reflexivity.
  - destruct rest as [|c rest]; [by apply elem_of_nil in Hin|].
    change (join_reprs (b :: c :: rest))
      with (repr_arg b +:+ ", " +:+ join_reprs (c :: rest)).
    apply occurs_app_r, occurs_app_r, IH, Hin.
Qed.

Lemma str_tuple_occurs a args :
  a ∈ args -> occurs (repr_arg a) (str_tuple args).
Proof.
  intros Hin.
  assert (Hshape : exists close, str_tuple args = "(" +:+ join_reprs args +:+ close).
  { destruct args as [|b [|c rest]]; [by exists ")" | by exists ",)" | by exists ")"]. }
  destruct Hshape as [close ->].
  apply occurs_app_r, occurs_app_l, join_reprs_occurs, Hin.
Qed.

Lemma occurs_trans a b c : occurs a b -> occurs b c -> occurs a c.
Proof.
  intros Hab (before & after & ->). by apply occurs_app_r, occurs_app_l.
Qed.

(** A string argument in which [Broken pipe] occurs puts it in [str(args)]. *)
Lemma broken_pipe_in_tuple s args :
  AStr s ∈ args ->
  contains "Broken pipe" s = true ->
  contains "Broken pipe" (str_tuple args) = true.
Proof.
  intros Hin Hs. apply contains_spec.
  apply (occurs_trans _ (repr_arg (AStr s))); [|by apply str_tuple_occurs].
  apply repr_str_keeps_broken_pipe, contains_spec, Hs.
Qed.

(** ** Content types *)

Lemma extensions_map_no_wasm : extensions_map !! ".wasm" = None.
Proof. reflexivity. Qed.

(** The server that registers the type serves [.wasm] files as
    [application/wasm], whatever table the interpreter starts with. *)
Lemma comprehensive_demo_wasm defaults path :
  splitext path = ".wasm" ->
  content_type ComprehensiveDemo defaults path = "application/wasm".
Proof.
  intros Hext. unfold content_type, guess_type, mimetypes_guess_type, module_level,
    add_type. rewrite Hext.
  change (lower ".wasm") with ".wasm".
  rewrite extensions_map_no_wasm. by rewrite lookup_insert_eq.
Qed.

(** The two other servers leave the table as the interpreter has it: a
    [.wasm] file gets the type the table gives, and
    [application/octet-stream] when the table has none. *)
Lemma unregistered_wasm v defaults path :
  v <> ComprehensiveDemo ->
  splitext path = ".wasm" ->
  content_type v defaults path =
    match defaults !! ".wasm" with
    | Some t => t
    | None => "application/octet-stream"
    end.
Proof.
  intros Hv Hext.
  assert (Hlevel : module_level v defaults = defaults) by (by destruct v).
  unfold content_type, guess_type, mimetypes_guess_type. rewrite Hlevel, Hext.
  change (lower ".wasm") with ".wasm".
  by rewrite extensions_map_no_wasm.
Qed.

(** ** The server process *)

(** The two servers that catch the interrupt: the listener is closed and
    the exit status is 0. *)
Lemma interrupt_caught dir files :
  let env := Environment dir files true true Py.KeyboardInterrupt in
  (listener (fst (serve env CapabilityShowcase)) = Closed
   /\ snd (serve env CapabilityShowcase) = 0)
  /\ (listener (fst (serve env WebglDemo)) = Closed
      /\ snd (serve env WebglDemo) = 0).
Proof. repeat split. Qed.

End ServerFacts.

Module ServerTheorems.
Import DevServer ServerFacts.
Local Open Scope list_scope.

(** Whatever the server, the protocol version of the request and the
    calls the library makes to answer it, every header section the server
    writes holds the three CORS headers. *)
Lemma cors_in_every_header_section v version calls :
  forall section,
    section ∈ header_sections (wfile (snd (answer v calls (new_handler version)))) ->
    Header "Access-Control-Allow-Origin" "*" ∈ section /\
    Header "Access-Control-Allow-Methods" "GET, POST, OPTIONS" ∈ section /\
    Header "Access-Control-Allow-Headers" "Content-Type" ∈ section.
Proof.
  destruct (answer_keeps v calls (new_handler version)) as (h & -> & Hinv);
    [apply Forall_nil_2|].
  intros section Hin. simpl in Hin.
  exact (proj1 (Forall_forall _ _) Hinv section Hin).
Qed.

(** The answer to a [GET] on the comprehensive demo: one header section,
    with the headers of the library followed by those of the server. *)
Example get_ok_sections :
  header_sections (wfile (snd (answer ComprehensiveDemo get_ok (new_handler "HTTP/1.1")))) =
    [[StatusLine 200 "OK";
      Header "Server" "SimpleHTTP/0.6 Python/3.11.2";
      Header "Content-type" "text/html";
      Header "Content-Length" "5";
      Header "Access-Control-Allow-Origin" "*";
      Header "Access-Control-Allow-Methods" "GET, POST, OPTIONS";
      Header "Access-Control-Allow-Headers" "Content-Type"]].
Proof. reflexivity. Qed.


(** C6. When the operator interrupts the comprehensive demo while it
    serves, the listener is closed on the way out of the [with] block,
    but nothing catches [KeyboardInterrupt]: the process does not exit
    with status 0. *)
Theorem C6_comprehensive_demo_interrupt_is_uncaught dir files pkg :
  let env := Environment dir files pkg true Py.KeyboardInterrupt in
  listener (fst (serve env ComprehensiveDemo)) = Closed
  /\ snd (serve env ComprehensiveDemo) = 130.
Proof. repeat split. Qed.

(** C10. In the capability showcase a log call writes nothing exactly when
    [Broken pipe] occurs in [str(args)]. So a call with a string argument
    in which [Broken pipe] occurs writes nothing, and neither does the
    request log line of a request whose request line has that text. *)
Theorem C10_broken_pipe_filter_is_a_substring_test base_log_message :
  (forall format args,
     log_message base_log_message format args = [] <->
     contains "Broken pipe" (str_tuple args) = true)
  /\ (forall format args s,
        AStr s ∈ args ->
        contains "Broken pipe" s = true ->
        log_message base_log_message format args = [])
  /\ (forall requestline code size,
        contains "Broken pipe" requestline = true ->
        log_request base_log_message requestline code size = []).
Proof.
  assert (Hiff : forall format args,
     log_message base_log_message format args = [] <->
     contains "Broken pipe" (str_tuple args) = true).
  { intros format args. unfold log_message.
    destruct (contains "Broken pipe" (str_tuple args)); simpl; split; congruence. }
  assert (Harg : forall format args s,
        AStr s ∈ args ->
        contains "Broken pipe" s = true ->
        log_message base_log_message format args = []).
  { intros format args s Hin Hs. apply Hiff. by apply (broken_pipe_in_tuple s). }
  repeat split; try apply Hiff; [exact Harg|].
  intros requestline code size Hline. unfold log_request.
  apply (Harg _ _ requestline); [by left | exact Hline].
Qed.

Lemma C10_broken_pipe_filter_is_a_substring_test_witness :
  log_message (fun _ _ => "127.0.0.1 - - [date] line") "%s"
    [AStr "[Errno 32] Broken pipe"] = []
  /\ log_request (fun _ _ => "127.0.0.1 - - [date] line")
       "GET /Broken pipe HTTP/1.1" "400" "-" = [].
Proof.
  destruct (C10_broken_pipe_filter_is_a_substring_test
              (fun _ _ => "127.0.0.1 - - [date] line")) as (_ & Harg & Hreq).
  split.
  - apply (Harg "%s" _ "[Errno 32] Broken pipe"); [by left | reflexivity].
  - apply Hreq. reflexivity.
Defined.

End ServerTheorems.

(** * More about the version-consistency checker *)

Module CheckerExtras.
Import VersionChecker CheckerFacts CheckerTheorems.
Local Open Scope list_scope.
Local Arguments String.append : simpl nomatch.

(** What the loop prints and does for a member that does not pass: the
    mismatch line and the comparison when the manifest declares a version
    field, and nothing but the probe and the opening when it does not. *)
Definition failure_lines (py_repr : toml_value -> string)
    (fs : gmap string entry) (wv : toml_value) (crate : string) : list string :=
  match declared_version fs crate with
  | Some v => [mismatch py_repr crate v wv]
  | None => []
  end.

Definition failure_events (fs : gmap string entry) (wv : toml_value)
    (crate : string) : list event :=
  [EvExists (crate_path crate); EvOpen (crate_path crate)] ++
  match declared_version fs crate with
  | Some v => [EvCompare v wv]
  | None => []
  end.

Section Failures.

Variable py_repr : toml_value -> string.
Variable fs : gmap string entry.

(** A member that does not pass ends the loop by an exception whose exit
    status is 1. *)
Lemma check_crate_fails wv crate s :
  passes fs wv crate = false ->
  exists e,
    check_crate py_repr fs wv crate s =
      (Py.Raise e,
       RunState (stdout s ++ failure_lines py_repr fs wv crate)
                (events s ++ failure_events fs wv crate))
    /\ Py.exit_status (@Py.Raise unit e) = 1.
Proof.
  unfold passes, consistent, absent, failure_lines, failure_events.
  destruct (declared_version fs crate) as [v|] eqn:Hv.
  - assert (Hsome : exists e, fs !! crate_path crate = Some e).
    { unfold declared_version in Hv. destruct (fs !! crate_path crate); eauto.
      discriminate. }
    destruct Hsome as [e0 ->]. simpl. intros Hfail.
    apply orb_false_iff in Hfail as [Hinh Heq].
    exists (Py.SystemExit 1). split; [|reflexivity].
    rewrite (check_crate_declared _ _ _ _ _ _ Hv). simpl.
    unfold py_ne. rewrite Hinh, Heq. simpl. by rewrite <- app_assoc.
  - intros Hfail. unfold declared_version in Hv.
    unfold check_crate, path_exists, load_toml, differs, print, log, getitem,
      Py.bind, Py.ret, Py.raise, Py.sys_exit. simpl.
    destruct (fs !! crate_path crate) as [[ | |doc]|]; simpl in *;
      try discriminate.
    + exists Py.OSError. rewrite app_nil_r, <- app_assoc. by split.
    + exists Py.TomlDecodeError. rewrite app_nil_r, <- app_assoc. by split.
    + destruct (assoc "package" doc) as [[ | | | |package]|]; simpl;
        try (exists Py.TypeError; rewrite app_nil_r, <- app_assoc; by split).
      * rewrite Hv. exists (Py.KeyError "version").
        rewrite app_nil_r, <- app_assoc. by split.
      * exists (Py.KeyError "package"). rewrite app_nil_r, <- app_assoc. by split.
Qed.

(** A root manifest without a workspace version ends the run at once. *)
Lemma read_workspace_version_fails s :
  workspace_version fs = None ->
  exists e,
    read_workspace_version fs s =
      (Py.Raise e, RunState (stdout s) (events s ++ [EvOpen "Cargo.toml"]))
    /\ Py.exit_status (@Py.Raise Z e) = 1.
Proof.
  unfold workspace_version, read_workspace_version, load_toml, log, getitem,
    Py.bind, Py.ret, Py.raise. simpl. intros Hv.
  destruct (fs !! "Cargo.toml") as [[ | |doc]|]; simpl;
    try (eexists; split; [reflexivity|reflexivity]).
  destruct (assoc "workspace" doc) as [[ | | | |ws]|]; simpl;
    try (eexists; split; [reflexivity|reflexivity]).
  destruct (assoc "package" ws) as [[ | | | |package]|]; simpl;
    try (eexists; split; [reflexivity|reflexivity]).
  rewrite Hv. eexists; split; reflexivity.
Qed.

End Failures.

(** A list with an element that fails a test splits at the first one. *)
Lemma first_failure {A} (f : A -> bool) (l : list A) :
  forallb f l = false ->
  exists pre x post, l = pre ++ x :: post /\ forallb f pre = true /\ f x = false.
Proof.
  induction l as [|a l IH]; simpl; [discriminate|].
  destruct (f a) eqn:Ha; simpl.
  - intros (pre & x & post & -> & Hpre & Hx)%IH.
    exists (a :: pre), x, post. simpl. by rewrite Ha, Hpre.
  - intros _. by exists [], a, l.
Qed.

(** The three ways a run goes. *)
Lemma run_cases py_repr fs :
  (workspace_version fs = None /\
   run py_repr fs = Report [] [EvOpen "Cargo.toml"] 1)
  \/ (exists wv,
        workspace_version fs = Some wv /\
        forallb (passes fs wv) crates = true /\
        run py_repr fs =
          Report (flat_map (lines_of fs) crates ++ [success])
                 (EvOpen "Cargo.toml" :: flat_map (events_of fs wv) crates) 0)
  \/ (exists wv pre crate post,
        workspace_version fs = Some wv /\
        crates = pre ++ crate :: post /\
        forallb (passes fs wv) pre = true /\
        passes fs wv crate = false /\
        run py_repr fs =
          Report (flat_map (lines_of fs) pre ++ failure_lines py_repr fs wv crate)
                 (EvOpen "Cargo.toml" :: flat_map (events_of fs wv) pre ++
                    failure_events fs wv crate) 1).
Proof.
  destruct (workspace_version fs) as [wv|] eqn:Hws.
  - right. destruct (forallb (passes fs wv) crates) eqn:Hall.
    + left. exists wv. split; [reflexivity|]. split; [exact Hall|].
      rewrite (run_unfold _ _ _ Hws), (check_crates_pass _ _ _ _ _ Hall).
      reflexivity.
    + right. apply first_failure in Hall as (pre & crate & post & Hsplit & Hpre & Hc).
      exists wv, pre, crate, post.
      split; [reflexivity|]. split; [exact Hsplit|].
      split; [exact Hpre|]. split; [exact Hc|].
      rewrite (run_unfold _ _ _ Hws), Hsplit, check_crates_app.
      rewrite (check_crates_pass _ _ _ _ _ Hpre). cbn [stdout events].
      rewrite check_crates_cons.
      destruct (check_crate_fails py_repr fs wv crate
                  (RunState ([] ++ flat_map (lines_of fs) pre)
                     ([EvOpen "Cargo.toml"] ++ flat_map (events_of fs wv) pre)) Hc)
        as (e & -> & He).
      cbn [stdout events]. rewrite He. reflexivity.
  - left. split; [reflexivity|].
    destruct (read_workspace_version_fails fs start Hws) as (e & Hread & He).
    unfold run, script, main, Py.bind. rewrite Hread. simpl.
    simpl in He. by rewrite He.
Qed.


(** With a workspace version that is the string [w], a member passes when
    its manifest is absent, when it declares the string [w], or when it
    declares a table with the key [workspace], and in no other case. *)
Lemma passes_string_iff fs w crate :
  passes fs (TStr w) crate = true <->
  fs !! crate_path crate = None
  \/ declared_version fs crate = Some (TStr w)
  \/ exists fields,
       declared_version fs crate = Some (TTable fields)
       /\ is_Some (assoc "workspace" fields).
Proof.
  unfold passes, consistent, absent, declared_version.
  destruct (fs !! crate_path crate) as [e|] eqn:Hfile; simpl.
  - set (dv := match e with
               | Manifest doc =>
                   match assoc "package" doc with
                   | Some (TTable package) => assoc "version" package
                   | _ => None
                   end
               | _ => None
               end).
    destruct dv as [v|].
    + destruct v as [s|n|b|items|fields]; simpl.
      * rewrite String.eqb_eq. split.
        -- intros ->. right. by left.
        -- intros [?|[[= ->]|(fields & [=] & _)]]; [discriminate|reflexivity].
      * split; [discriminate|].
        intros [?|[?|(fields & ? & _)]]; discriminate.
      * split; [discriminate|].
        intros [?|[?|(fields & ? & _)]]; discriminate.
      * split; [discriminate|].
        intros [?|[?|(fields & ? & _)]]; discriminate.
      * unfold inherits. simpl.
        destruct (assoc "workspace" fields) as [x|] eqn:Hk; simpl.
        -- split; [|reflexivity]. intros _. right. right. exists fields.
           split; [reflexivity|]. rewrite Hk. by exists x.
        -- split; [discriminate|].
           intros [?|[?|(fields' & [= <-] & [x Hx])]]; try discriminate.
           congruence.
    + split; [discriminate|].
      intros [?|[?|(fields & ? & _)]]; discriminate.
  - split; [intros _; by left | reflexivity].
Qed.

(** The success line is no warning and no mismatch line. *)
Lemma success_not_warning crate : success <> warning crate.
Proof. unfold success, warning. simpl. discriminate. Qed.

Lemma success_not_mismatch py_repr crate v wv :
  success <> mismatch py_repr crate v wv.
Proof. unfold success, mismatch. simpl. discriminate. Qed.

Lemma success_not_in_lines fs members : success ∉ flat_map (lines_of fs) members.
Proof.
  intros (c & _ & Hin)%list_elem_of_In%in_flat_map.
  unfold lines_of in Hin. destruct (absent fs c); simpl in Hin;
    [destruct Hin as [Heq|[]] | destruct Hin].
  by apply (success_not_warning c).
Qed.

(** X1. The exit status of a run is 0 or 1, and the call
    [print("All versions are consistent!")] is made exactly when it
    is 0. *)
Theorem exit_status_and_success_line py_repr fs :
  (status (run py_repr fs) = 0 \/ status (run py_repr fs) = 1)
  /\ ("All versions are consistent!" ∈ printed (run py_repr fs)
      <-> status (run py_repr fs) = 0).
Proof.
  destruct (run_cases py_repr fs)
    as [[_ ->]|[(wv & _ & _ & ->)|(wv & pre & crate & post & _ & _ & _ & _ & ->)]];
    cbn [status printed].
  - split; [by right|]. split; [by intros ?%elem_of_nil | discriminate].
  - split; [by left|]. split; [reflexivity|].
    intros _. apply elem_of_app. right. by left.
  - split; [by right|]. split; [|discriminate].
    intros [Hin|Hin]%elem_of_app.
    + by apply success_not_in_lines in Hin.
    + unfold failure_lines in Hin. destruct (declared_version fs crate).
      * apply list_elem_of_singleton in Hin. by apply success_not_mismatch in Hin.
      * by apply elem_of_nil in Hin.
Qed.

(** X2. With a workspace version that is a string, the run exits with
    status 0 exactly when every listed member has no manifest, declares
    that very string, or declares a table with the key [workspace]. *)
Theorem exit_status_zero_iff py_repr fs w :
  workspace_version fs = Some (TStr w) ->
  (status (run py_repr fs) = 0 <->
   forall crate, crate ∈ crates ->
     fs !! crate_path crate = None
     \/ declared_version fs crate = Some (TStr w)
     \/ exists fields,
          declared_version fs crate = Some (TTable fields)
          /\ is_Some (assoc "workspace" fields)).
Proof.
  intros Hws.
  destruct (run_cases py_repr fs)
    as [[Hnone _]|[(wv & Hwv & Hall & ->)|(wv & pre & crate & post & Hwv & Hsplit & _ & Hc & ->)]];
    [congruence| |]; cbn [status];
    assert (wv = TStr w) as -> by congruence.
  - split; [intros _|reflexivity]. intros crate Hin.
    apply passes_string_iff.
    apply (proj1 (forallb_forall _ _) Hall), list_elem_of_In, Hin.
  - split; [discriminate|]. intros Hall. exfalso.
    assert (Hpass : passes fs (TStr w) crate = true).
    { apply passes_string_iff, Hall. rewrite Hsplit.
      apply elem_of_app. right. by left. }
    congruence.
Qed.

Lemma exit_status_zero_iff_witness :
  status (run sample_repr fs_consistent) = 0 <->
  forall crate, crate ∈ crates ->
    fs_consistent !! crate_path crate = None
    \/ declared_version fs_consistent crate = Some (TStr "1.2.0")
    \/ exists fields,
         declared_version fs_consistent crate = Some (TTable fields)
         /\ is_Some (assoc "workspace" fields).
Proof.
  exact (exit_status_zero_iff sample_repr fs_consistent "1.2.0" eq_refl).
Defined.

(** X3. When the root manifest is missing, unreadable, not valid TOML, or
    has no [workspace.package.version], the run prints nothing, examines
    no member and exits with status 1. *)
Theorem broken_root_manifest_aborts py_repr fs :
  workspace_version fs = None ->
  run py_repr fs = Report [] [EvOpen "Cargo.toml"] 1.
Proof.
  intros Hws.
  destruct (run_cases py_repr fs)
    as [[_ Hrun]|[(wv & Hwv & _)|(wv & ? & ? & ? & Hwv & _)]];
    [exact Hrun | congruence | congruence].
Qed.

Lemma broken_root_manifest_aborts_witness :
  run sample_repr (<["Cargo.toml" := Manifest [("package", TTable [])]]> ∅) =
    Report [] [EvOpen "Cargo.toml"] 1.
Proof.
  exact (broken_root_manifest_aborts sample_repr
           (<["Cargo.toml" := Manifest [("package", TTable [])]]> ∅) eq_refl).
Defined.


(** Workspace at 1.2.0; the manifest of the first member has a [package]
    table without [version], the second member is at 1.1.9. *)
Definition fs_no_version : gmap string entry :=
  <["Cargo.toml" := root_manifest "1.2.0"]>
  (<[crate_path "leptos-motion-core" :=
       Manifest [("package", TTable [("name", TStr "leptos-motion-core")])]]>
  (<[crate_path "leptos-motion-dom" :=
       member_manifest "leptos-motion-dom" (TStr "1.1.9")]> ∅)).

(** X4. A member whose manifest exists but cannot be read, is not valid
    TOML or has no [package.version] ends the run that comes to it with
    status 1: the manifest is probed and opened, nothing is compared, and
    neither a mismatch line nor the success line is printed. *)
Theorem broken_member_manifest_aborts py_repr fs wv pre crate post :
  workspace_version fs = Some wv ->
  crates = pre ++ crate :: post ->
  forallb (passes fs wv) pre = true ->
  is_Some (fs !! crate_path crate) ->
  declared_version fs crate = None ->
  run py_repr fs =
    Report (flat_map (lines_of fs) pre)
           (EvOpen "Cargo.toml" :: flat_map (events_of fs wv) pre ++
              [EvExists (crate_path crate); EvOpen (crate_path crate)])
           1.
Proof.
  intros Hws Hsplit Hpre [e He] Hv.
  assert (Hc : passes fs wv crate = false).
  { unfold passes, consistent, absent. by rewrite He, Hv. }
  rewrite (run_unfold _ _ _ Hws), Hsplit, check_crates_app.
  rewrite (check_crates_pass _ _ _ _ _ Hpre). cbn [stdout events].
  rewrite check_crates_cons.
  destruct (check_crate_fails py_repr fs wv crate
              (RunState ([] ++ flat_map (lines_of fs) pre)
                 ([EvOpen "Cargo.toml"] ++ flat_map (events_of fs wv) pre)) Hc)
    as (x & -> & Hx).
  cbn [stdout events]. rewrite Hx.
  unfold failure_lines, failure_events. rewrite Hv.
  simpl. by rewrite !app_nil_r.
Qed.

Lemma broken_member_manifest_aborts_witness :
  run sample_repr fs_no_version =
    Report []
      [EvOpen "Cargo.toml";
       EvExists "crates/leptos-motion-core/Cargo.toml";
       EvOpen "crates/leptos-motion-core/Cargo.toml"]
      1.
Proof.
  apply (broken_member_manifest_aborts sample_repr fs_no_version (TStr "1.2.0")
           [] "leptos-motion-core"
           ["leptos-motion-dom"; "leptos-motion-gestures"; "leptos-motion-layout";
            "leptos-motion-scroll"; "leptos-motion-macros"; "leptos-motion"]);
    try reflexivity.
  by eexists.
Defined.

(** X5. A member that declares the very string of the workspace version
    is consistent: the checker probes and opens its manifest, compares
    the two versions, prints nothing, and goes on with the next member. *)
Theorem equal_literal_is_consistent py_repr fs w crate rest s :
  declared_version fs crate = Some (TStr w) ->
  check_crates py_repr fs (TStr w) (crate :: rest) s =
    check_crates py_repr fs (TStr w) rest
      (RunState (stdout s)
         (events s ++ [EvExists (crate_path crate); EvOpen (crate_path crate);
                       EvCompare (TStr w) (TStr w)])).
Proof.
  intros Hv. rewrite check_crates_cons, (check_crate_declared _ _ _ _ _ _ Hv).
  simpl. unfold py_ne. simpl. rewrite String.eqb_refl. simpl.
  by rewrite <- app_assoc.
Qed.

Lemma equal_literal_is_consistent_witness :
  check_crates sample_repr fs_mismatch (TStr "1.2.0") ["leptos-motion-core"] start =
    (Py.Ret tt,
     RunState []
       [EvExists "crates/leptos-motion-core/Cargo.toml";
        EvOpen "crates/leptos-motion-core/Cargo.toml";
        EvCompare (TStr "1.2.0") (TStr "1.2.0")]).
Proof.
  exact (equal_literal_is_consistent sample_repr fs_mismatch "1.2.0"
           "leptos-motion-core" [] start eq_refl).
Defined.

(** The paths a member's events touch are its own, and it is opened only
    when its manifest exists. *)
Lemma events_of_guarded fs wv crate e :
  e ∈ events_of fs wv crate ->
  match e with
  | EvExists p => p = crate_path crate
  | EvOpen p => p = crate_path crate /\ is_Some (fs !! p)
  | EvCompare _ _ => True
  end.
Proof.
  unfold events_of. destruct (declared_version fs crate) as [v|] eqn:Hv.
  - assert (Hsome : is_Some (fs !! crate_path crate)).
    { unfold declared_version in Hv. destruct (fs !! crate_path crate); [eauto|discriminate]. }
    destruct (inherits v); simpl; rewrite ?elem_of_cons, ?elem_of_nil;
      intros H; repeat destruct H as [H|H]; subst; auto; contradiction.
  - rewrite elem_of_cons, elem_of_nil. intros [->|[]]. reflexivity.
Qed.

(** X6. Whatever the files, a run opens, besides the root manifest, only
    manifests of listed members that exist, and probes only manifests of
    listed members. *)
Theorem opens_only_existing_manifests py_repr fs :
  forall p,
    (EvOpen p ∈ trace (run py_repr fs) ->
     p = "Cargo.toml"
     \/ (exists crate, crate ∈ crates /\ p = crate_path crate) /\ is_Some (fs !! p))
    /\ (EvExists p ∈ trace (run py_repr fs) ->
        exists crate, crate ∈ crates /\ p = crate_path crate).
Proof.
  intros p.
  assert (Hpre : forall wv members,
    (forall c, c ∈ members -> c ∈ crates) ->
    (EvOpen p ∈ flat_map (events_of fs wv) members ->
       (exists crate, crate ∈ crates /\ p = crate_path crate) /\ is_Some (fs !! p))
    /\ (EvExists p ∈ flat_map (events_of fs wv) members ->
       exists crate, crate ∈ crates /\ p = crate_path crate)).
  { intros wv members Hsub. split.
    - intros (c & Hc & Hin)%list_elem_of_In%in_flat_map.
      apply list_elem_of_In in Hc, Hin.
      destruct (events_of_guarded _ _ _ _ Hin) as [-> Hs]. eauto.
    - intros (c & Hc & Hin)%list_elem_of_In%in_flat_map.
      apply list_elem_of_In in Hc, Hin.
      rewrite (events_of_guarded _ _ _ _ Hin). eauto. }
  destruct (run_cases py_repr fs)
    as [[_ ->]|[(wv & _ & _ & ->)|(wv & pre & crate & post & _ & Hsplit & _ & Hc & ->)]];
    cbn [trace].
  - split.
    + intros [[= ->]|[]%elem_of_nil]%elem_of_cons. by left.
    + intros [[=]|[]%elem_of_nil]%elem_of_cons.
  - destruct (Hpre wv crates) as [Ho He]; [auto|]. split.
    + intros [[= ->]|Hin]%elem_of_cons; [by left | right; auto].
    + intros [[=]|Hin]%elem_of_cons. auto.
  - destruct (Hpre wv pre) as [Ho He].
    { intros c Hin. rewrite Hsplit. apply elem_of_app. by left. }
    assert (Hcrate : crate ∈ crates)
      by (rewrite Hsplit; apply elem_of_app; right; by left).
    assert (Hsome : is_Some (fs !! crate_path crate)).
    { unfold passes, absent in Hc. destruct (fs !! crate_path crate); [eauto|discriminate]. }
    unfold failure_events. split.
    + intros [[= ->]|Hin]%elem_of_cons; [by left | right].
      apply elem_of_app in Hin as [Hin|Hin]; [auto|].
      apply elem_of_app in Hin as [Hin|Hin].
      * rewrite !elem_of_cons, elem_of_nil in Hin.
        destruct Hin as [[=]|[[= ->]|[]]]. eauto.
      * destruct (declared_version fs crate);
          [apply list_elem_of_singleton in Hin; discriminate | by apply elem_of_nil in Hin].
    + intros [[=]|Hin]%elem_of_cons.
      apply elem_of_app in Hin as [Hin|Hin]; [auto|].
      apply elem_of_app in Hin as [Hin|Hin].
      * rewrite !elem_of_cons, elem_of_nil in Hin.
        destruct Hin as [[= ->]|[[=]|[]]]. eauto.
      * destruct (declared_version fs crate);
          [apply list_elem_of_singleton in Hin; discriminate | by apply elem_of_nil in Hin].
Qed.

Lemma opens_only_existing_manifests_witness :
  "crates/leptos-motion-dom/Cargo.toml" = "Cargo.toml"
  \/ (exists crate, crate ∈ crates /\ "crates/leptos-motion-dom/Cargo.toml" = crate_path crate)
     /\ is_Some (fs_mismatch !! "crates/leptos-motion-dom/Cargo.toml").
Proof.
  apply (opens_only_existing_manifests sample_repr fs_mismatch
           "crates/leptos-motion-dom/Cargo.toml").
  vm_compute. set_solver.
Defined.


Lemma lines_of_filter fs members :
  flat_map (lines_of fs) members = map warning (List.filter (absent fs) members).
Proof.
  induction members as [|c rest IH]; [reflexivity|].
  simpl. unfold lines_of at 1. destruct (absent fs c); simpl; by rewrite IH.
Qed.

(** Two listed members have different manifests. *)
Lemma crate_path_listed_inj a b :
  a ∈ crates -> b ∈ crates -> crate_path a = crate_path b -> a = b.
Proof.
  unfold crates. rewrite !elem_of_cons, !elem_of_nil.
  intros Ha Hb.
  repeat destruct Ha as [->|Ha]; try contradiction;
    repeat destruct Hb as [->|Hb]; try contradiction;
    intros Heq; try reflexivity; vm_compute in Heq; discriminate.
Qed.

(** The members probed among those that pass. *)
Lemma probed_among_passing fs wv members crate :
  (forall c, c ∈ members -> c ∈ crates) ->
  crate ∈ crates ->
  EvExists (crate_path crate) ∈ flat_map (events_of fs wv) members <->
  crate ∈ members.
Proof.
  intros Hsub Hcrate. split.
  - intros (c & Hc & Hin)%list_elem_of_In%in_flat_map.
    apply list_elem_of_In in Hc, Hin.
    assert (Heq : crate_path crate = crate_path c)
      by exact (events_of_guarded _ _ _ _ Hin).
    by rewrite (crate_path_listed_inj crate c Hcrate (Hsub c Hc) Heq).
  - intros Hin. apply list_elem_of_In, in_flat_map. exists crate.
    split; [by apply list_elem_of_In|]. apply list_elem_of_In.
    unfold events_of. destruct (declared_version fs crate); by left.
Qed.

(** X7. Whatever the files, the members a run probes are the first ones
    of the hardcoded list, and what it prints is the warning of each
    probed member whose manifest is absent, in the order of the list,
    followed by nothing, by the success message, or by one mismatch
    message. *)
Theorem warnings_are_for_probed_absent_members py_repr fs :
  exists probed final,
    printed (run py_repr fs) = map warning (List.filter (absent fs) probed) ++ final
    /\ (exists rest, crates = probed ++ rest)
    /\ (forall crate, crate ∈ crates ->
          (crate ∈ probed <-> EvExists (crate_path crate) ∈ trace (run py_repr fs)))
    /\ (final = [] \/ final = ["All versions are consistent!"]
        \/ exists crate v wv, final = [mismatch py_repr crate v wv]).
Proof.
  destruct (run_cases py_repr fs)
    as [[_ ->]|[(wv & _ & _ & ->)|(wv & pre & crate & post & _ & Hsplit & _ & Hc & ->)]];
    cbn [printed trace].
  - exists [], []. split; [reflexivity|]. split; [by exists crates|].
    split; [|by left]. intros crate _. split.
    + by intros ?%elem_of_nil.
    + intros [[=]|[]%elem_of_nil]%elem_of_cons.
  - exists crates, [success]. rewrite lines_of_filter.
    split; [reflexivity|]. split; [exists []; by rewrite app_nil_r|].
    split; [|right; by left]. intros crate Hcrate. split.
    + intros _. right. by apply probed_among_passing.
    + by intros _.
  - assert (Hpre : forall c, c ∈ pre -> c ∈ crates)
      by (intros c Hin; rewrite Hsplit; apply elem_of_app; by left).
    assert (Hcrate : crate ∈ crates)
      by (rewrite Hsplit; apply elem_of_app; right; by left).
    assert (Habs : absent fs crate = false)
      by (unfold passes in Hc; by apply orb_false_iff in Hc as [? _]).
    exists (pre ++ [crate]), (failure_lines py_repr fs wv crate).
    rewrite lines_of_filter, List.filter_app. simpl. rewrite Habs, app_nil_r.
    split; [reflexivity|].
    split; [exists post; by rewrite <- app_assoc|].
    split.
    + intros c Hlisted. unfold failure_events. split.
      * intros [Hin| ->%list_elem_of_singleton]%elem_of_app; right;
          apply elem_of_app; [left | right; by left].
        by apply probed_among_passing.
      * intros [[=]|Hin]%elem_of_cons.
        apply elem_of_app in Hin as [Hin|Hin]; apply elem_of_app.
        -- left. by apply (probed_among_passing fs wv pre c Hpre Hlisted).
        -- right. apply list_elem_of_singleton.
           apply elem_of_app in Hin as [Hin|Hin].
           ++ rewrite !elem_of_cons, elem_of_nil in Hin.
              destruct Hin as [Heq|[[=]|[]]].
              apply crate_path_listed_inj; [done | done | congruence].
           ++ destruct (declared_version fs crate);
                [apply list_elem_of_singleton in Hin; discriminate
                | by apply elem_of_nil in Hin].
    + unfold failure_lines. destruct (declared_version fs crate) as [v|];
        [right; right; by exists crate, v, wv | by left].
Qed.

End CheckerExtras.

(** * More about the development servers *)

Module ServerExtras.
Import DevServer ServerFacts.
Local Open Scope list_scope.

(** ** Response headers *)

(** The headers a server adds in its [end_headers], in the order of the
    source. *)
Definition own_headers (v : variant) : list header_line :=
  match v with
  | CapabilityShowcase | ComprehensiveDemo =>
      [Header "Access-Control-Allow-Origin" "*";
       Header "Access-Control-Allow-Methods" "GET, POST, OPTIONS";
       Header "Access-Control-Allow-Headers" "Content-Type"]
  | WebglDemo =>
      [Header "Cross-Origin-Embedder-Policy" "require-corp";
       Header "Cross-Origin-Opener-Policy" "same-origin";
       Header "Access-Control-Allow-Origin" "*";
       Header "Access-Control-Allow-Methods" "GET, POST, OPTIONS";
       Header "Access-Control-Allow-Headers" "Content-Type"]
  end.

(** The header sections the calls of the library should give: the lines
    buffered since the last section, then the headers of the server. *)
Fixpoint sections_of (v : variant) (buffer : list header_line) (calls : list call)
    : list (list header_line) :=
  match calls with
  | [] => []
  | SendResponseOnly code message :: rest =>
      sections_of v (buffer ++ [StatusLine code message]) rest
  | SendHeader keyword value :: rest =>
      sections_of v (buffer ++ [Header keyword value]) rest
  | EndHeaders :: rest => (buffer ++ own_headers v) :: sections_of v [] rest
  | WriteBody _ :: rest => sections_of v buffer rest
  end.

(** The bodies among what was written, and among the calls. *)
Definition bodies (out : list chunk) : list string :=
  omap (fun c => match c with Body data => Some data | HeaderSection _ => None end) out.

Definition bodies_of (calls : list call) : list string :=
  omap (fun c => match c with WriteBody data => Some data | _ => None end) calls.

Lemma bodies_app out out' : bodies (out ++ out') = bodies out ++ bodies out'.
Proof. unfold bodies. apply omap_app. Qed.

(** [end_headers] of a server, on a request that is not HTTP/0.9. *)
Lemma end_headers_new v version buffer out :
  String.eqb version "HTTP/0.9" = false ->
  end_headers v (Handler version buffer out) =
    (Py.Ret tt, Handler version [] (out ++ [HeaderSection (buffer ++ own_headers v)])).
Proof.
  intros Hver.
  destruct v; unfold end_headers, send_header, buffer_line, base_end_headers, Py.bind;
    repeat (cbn [request_version headers_buffer wfile]; rewrite ?Hver);
    by rewrite <- !app_assoc.
Qed.

(** [end_headers] of a server, on an HTTP/0.9 request. *)
Lemma end_headers_old v buffer out :
  end_headers v (Handler "HTTP/0.9" buffer out) =
    (Py.Ret tt, Handler "HTTP/0.9" buffer out).
Proof. by destruct v. Qed.

Lemma answer_cons v c rest h :
  answer v (c :: rest) h =
    match perform v c h with
    | (Py.Ret _, h') => answer v rest h'
    | (Py.Raise e, h') => (Py.Raise e, h')
    end.
Proof. reflexivity. Qed.

(** The header sections written on a request that is not HTTP/0.9. *)
Lemma header_sections_answer v version calls :
  version <> "HTTP/0.9" ->
  header_sections (wfile (snd (answer v calls (new_handler version)))) =
    sections_of v [] calls.
Proof.
  intros Hver. apply String.eqb_neq in Hver.
  assert (Hgen : forall calls buffer out,
    header_sections (wfile (snd (answer v calls (Handler version buffer out)))) =
      header_sections out ++ sections_of v buffer calls).
  { clear calls. induction calls as [|c rest IH]; intros buffer out.
    - simpl. by rewrite app_nil_r.
    - rewrite answer_cons. destruct c as [code message|keyword value| |data];
        cbn [perform sections_of].
      + unfold send_response_only, buffer_line. cbn [request_version headers_buffer wfile].
        rewrite Hver. apply IH.
      + unfold send_header, buffer_line. cbn [request_version headers_buffer wfile].
        rewrite Hver. apply IH.
      + rewrite (end_headers_new _ _ _ _ Hver), IH, header_sections_app.
        simpl. by rewrite <- app_assoc.
      + unfold write. cbn [request_version headers_buffer wfile].
        rewrite IH, header_sections_app. simpl. by rewrite app_nil_r. }
  apply (Hgen calls [] []).
Qed.


(** X8. On a request that is not HTTP/0.9, the header sections a server
    writes are, one per [end_headers] of the library, the lines the library
    buffered followed by the headers of the server; nothing of what the
    library buffered is dropped or reordered. *)
Theorem sections_are_library_lines_then_own_headers v version calls :
  version <> "HTTP/0.9" ->
  header_sections (wfile (snd (answer v calls (new_handler version)))) =
    sections_of v [] calls.
Proof. apply header_sections_answer. Qed.

Lemma sections_of_end v buffer calls section :
  section ∈ sections_of v buffer calls ->
  exists lines, section = lines ++ own_headers v.
Proof.
  revert buffer. induction calls as [|c rest IH]; intros buffer; simpl.
  - by intros ?%elem_of_nil.
  - destruct c; try apply IH.
    intros [->|Hin]%elem_of_cons; [eauto | by apply (IH [])].
Qed.

(** On an HTTP/0.9 request nothing is buffered and no header section is
    written: the bodies alone go out. *)
Lemma answer_old v calls buffer out :
  answer v calls (Handler "HTTP/0.9" buffer out) =
    (Py.Ret tt, Handler "HTTP/0.9" buffer (out ++ map Body (bodies_of calls))).
Proof.
  revert out. induction calls as [|c rest IH]; intros out.
  - simpl. by rewrite app_nil_r.
  - rewrite answer_cons. destruct c as [code message|keyword value| |data];
      cbn [perform].
    + apply IH.
    + apply IH.
    + rewrite end_headers_old. apply IH.
    + unfold write. cbn [request_version headers_buffer wfile].
      rewrite IH. unfold bodies_of. simpl. by rewrite <- app_assoc.
Qed.

(** X9. The WebGL demo puts [Cross-Origin-Embedder-Policy: require-corp]
    and [Cross-Origin-Opener-Policy: same-origin] in every header section
    it writes, whatever the request. *)
Theorem webgl_isolation_headers_on_every_response version calls :
  forall section,
    section ∈ header_sections (wfile (snd (answer WebglDemo calls (new_handler version)))) ->
    Header "Cross-Origin-Embedder-Policy" "require-corp" ∈ section /\
    Header "Cross-Origin-Opener-Policy" "same-origin" ∈ section.
Proof.
  intros section Hin.
  destruct (String.eqb version "HTTP/0.9") eqn:Hver.
  - apply String.eqb_eq in Hver as ->. unfold new_handler in Hin.
    rewrite answer_old in Hin. simpl in Hin.
    unfold header_sections in Hin.
    apply list_elem_of_omap in Hin as (c & Hc & Hsome).
    apply list_elem_of_fmap in Hc as (data & -> & _). discriminate.
  - apply String.eqb_neq in Hver.
    rewrite (header_sections_answer _ _ _ Hver) in Hin.
    apply sections_of_end in Hin as [lines ->]. simpl. set_solver.
Qed.

Lemma webgl_isolation_headers_on_every_response_witness :
  let section :=
    [StatusLine 200 "OK";
     Header "Server" "SimpleHTTP/0.6 Python/3.11.2";
     Header "Content-type" "text/html";
     Header "Content-Length" "5";
     Header "Cross-Origin-Embedder-Policy" "require-corp";
     Header "Cross-Origin-Opener-Policy" "same-origin";
     Header "Access-Control-Allow-Origin" "*";
     Header "Access-Control-Allow-Methods" "GET, POST, OPTIONS";
     Header "Access-Control-Allow-Headers" "Content-Type"] in
  Header "Cross-Origin-Embedder-Policy" "require-corp" ∈ section /\
  Header "Cross-Origin-Opener-Policy" "same-origin" ∈ section.
Proof.
  apply (webgl_isolation_headers_on_every_response "HTTP/1.1" get_ok).
  rewrite header_sections_answer by discriminate.
  by left.
Defined.

Lemma sections_are_library_lines_then_own_headers_witness :
  header_sections (wfile (snd (answer CapabilityShowcase get_ok (new_handler "HTTP/1.0")))) =
    [[StatusLine 200 "OK";
      Header "Server" "SimpleHTTP/0.6 Python/3.11.2";
      Header "Content-type" "text/html";
      Header "Content-Length" "5";
      Header "Access-Control-Allow-Origin" "*";
      Header "Access-Control-Allow-Methods" "GET, POST, OPTIONS";
      Header "Access-Control-Allow-Headers" "Content-Type"]].
Proof.
  apply (sections_are_library_lines_then_own_headers CapabilityShowcase "HTTP/1.0" get_ok).
  discriminate.
Defined.

(** X10. Whatever the server and the protocol version, the bodies that go
    out are the bodies the library writes, in order: the headers a server
    adds never touch them. And on an HTTP/0.9 request no header section
    goes out at all. *)
Theorem bodies_untouched_and_no_headers_on_http09 v calls :
  (forall version,
     bodies (wfile (snd (answer v calls (new_handler version)))) = bodies_of calls)
  /\ header_sections (wfile (snd (answer v calls (new_handler "HTTP/0.9")))) = [].
Proof.
  assert (Hmap : forall l, bodies (map Body l) = l /\ header_sections (map Body l) = []).
  { induction l as [|x l [IH1 IH2]]; [done|]. split; simpl; [by rewrite IH1 | exact IH2]. }
  split.
  - intros version. destruct (String.eqb version "HTTP/0.9") eqn:Hver.
    + apply String.eqb_eq in Hver as ->. unfold new_handler.
      rewrite answer_old. simpl. apply Hmap.
    + assert (Hgen : forall calls buffer out,
        bodies (wfile (snd (answer v calls (Handler version buffer out)))) =
          bodies out ++ bodies_of calls).
      { clear calls. induction calls as [|c rest IH]; intros buffer out.
        - simpl. by rewrite app_nil_r.
        - rewrite answer_cons. destruct c as [code message|keyword value| |data];
            cbn [perform].
          + unfold send_response_only, buffer_line.
            cbn [request_version headers_buffer wfile]. rewrite Hver. apply IH.
          + unfold send_header, buffer_line.
            cbn [request_version headers_buffer wfile]. rewrite Hver. apply IH.
          + rewrite (end_headers_new _ _ _ _ Hver), IH, bodies_app.
            simpl. by rewrite app_nil_r.
          + unfold write. cbn [request_version headers_buffer wfile].
            rewrite IH, bodies_app. unfold bodies_of. simpl.
            by rewrite <- app_assoc. }
      apply (Hgen calls [] []).
  - unfold new_handler. rewrite answer_old. simpl. apply Hmap.
Qed.


(** ** The server process *)

(** X11. However a run of a server ends, the listener is not left
    listening: it is closed when it was bound, that is when the port was
    free and, for the capability showcase, the [pkg] directory exists; it
    was never bound otherwise. And the working directory is the directory
    of the script. *)
Theorem listener_never_left_open env v :
  listener (fst (serve env v)) =
    (if port_free env &&
        (match v with CapabilityShowcase => pkg_exists env | _ => true end)
     then Closed else NotBound)
  /\ cwd (fst (serve env v)) = Some (script_dir env).
Proof.
  destruct env as [dir files pkg port e].
  destruct v, pkg, port, e; split; reflexivity.
Qed.

(** X12. Without the [pkg] directory the capability showcase prints its
    two error lines and exits with status 1 before it binds the port,
    whether the port is free or not. *)
Theorem capability_showcase_needs_pkg dir files port e :
  serve (Environment dir files false port e) CapabilityShowcase =
    (Process NotBound (Some dir)
       ["❌ Error: pkg directory not found!";
        "Please run 'wasm-pack build --target web --out-dir pkg' first"],
     1).
Proof. reflexivity. Qed.


(** X14. When [serve_forever] ends by an exception other than
    [KeyboardInterrupt], no server catches it: the listener is closed and
    the exit status is the one of that uncaught exception. *)
Theorem other_exceptions_are_not_caught dir files e v :
  is_keyboard_interrupt e = false ->
  listener (fst (serve (Environment dir files true true e) v)) = Closed
  /\ snd (serve (Environment dir files true true e) v) =
       Py.exit_status (@Py.Raise unit e).
Proof.
  intros He. destruct v, e; try discriminate He; split; reflexivity.
Qed.

Lemma other_exceptions_are_not_caught_witness :
  listener (fst (serve (Environment "/srv/demo" "[]" true true Py.OSError)
                   CapabilityShowcase)) = Closed
  /\ snd (serve (Environment "/srv/demo" "[]" true true Py.OSError)
            CapabilityShowcase) = 1.
Proof.
  exact (other_exceptions_are_not_caught "/srv/demo" "[]" Py.OSError
           CapabilityShowcase eq_refl).
Defined.


(** ** Content types *)

Lemma extensions_map_lookup ext t :
  extensions_map !! ext = Some t ->
  ext = ".gz" \/ ext = ".Z" \/ ext = ".bz2" \/ ext = ".xz".
Proof.
  unfold extensions_map.
  rewrite !lookup_insert_Some, lookup_empty.
  intros [[<- _]|[_ [[<- _]|[_ [[<- _]|[_ [[<- _]|[_ [=]]]]]]]]]; auto.
Qed.

Lemma extensions_map_not_wasm ext :
  lower ext = ".wasm" -> extensions_map !! ext = None.
Proof.
  intros Hlower. destruct (extensions_map !! ext) as [t|] eqn:Hext; [|reflexivity].
  apply extensions_map_lookup in Hext as [->|[->|[->| ->]]]; discriminate.
Qed.

Lemma registered_wasm_type defaults path :
  lower (splitext path) = ".wasm" ->
  content_type ComprehensiveDemo defaults path = "application/wasm".
Proof.
  intros Hlower.
  unfold content_type, guess_type, mimetypes_guess_type, module_level, add_type.
  rewrite (extensions_map_not_wasm _ Hlower), Hlower.
  rewrite extensions_map_no_wasm. by rewrite lookup_insert_eq.
Qed.

(** X16. The comprehensive demo gives [application/wasm] to every file
    whose extension is [.wasm] in any case of letters, whatever the table
    of types the interpreter starts with, also when that table maps
    [.wasm] to another type. *)
Theorem comprehensive_demo_serves_wasm defaults path :
  lower (splitext path) = ".wasm" ->
  content_type ComprehensiveDemo defaults path = "application/wasm".
Proof. apply registered_wasm_type. Qed.

Lemma comprehensive_demo_serves_wasm_witness :
  content_type ComprehensiveDemo (<[".wasm" := "application/x-other"]> ∅)
    "pkg/Demo_bg.WASM" = "application/wasm".
Proof.
  exact (comprehensive_demo_serves_wasm (<[".wasm" := "application/x-other"]> ∅)
           "pkg/Demo_bg.WASM" eq_refl).
Defined.

(** The extensions, in lower case, that [mimetypes] rewrites or strips
    before it looks a type up: the keys of its [suffix_map] and
    [encodings_map]. *)
Definition rewritten_suffixes : list string :=
  [".svgz"; ".tgz"; ".taz"; ".tz"; ".tbz2"; ".txz";
   ".gz"; ".z"; ".bz2"; ".xz"; ".br"].

(** X17. The registration of the comprehensive demo changes the type of
    [.wasm] files only: a file whose extension is not [.wasm], and is none
    of the suffixes that [mimetypes] rewrites or strips, gets the same
    type from the three servers. *)
Theorem registration_changes_wasm_only defaults path v :
  lower (splitext path) <> ".wasm" ->
  lower (splitext path) ∉ rewritten_suffixes ->
  content_type v defaults path = guess_type defaults path.
Proof.
  intros Hother _. destruct v; try reflexivity.
  unfold content_type, guess_type, mimetypes_guess_type, module_level, add_type.
  by rewrite lookup_insert_ne.
Qed.

Lemma registration_changes_wasm_only_witness :
  content_type ComprehensiveDemo defaults_without_wasm "pkg/demo.js" =
    guess_type defaults_without_wasm "pkg/demo.js".
Proof.
  apply (registration_changes_wasm_only defaults_without_wasm "pkg/demo.js"
           ComprehensiveDemo).
  - discriminate.
  - apply (bool_decide_unpack _). vm_compute. reflexivity.
Defined.

(** [c] occurs in [s]. *)
Fixpoint has_char (c : ascii) (s : string) : bool :=
  match s with
  | EmptyString => false
  | String x rest => Ascii.eqb x c || has_char c rest
  end.

Local Arguments String.append : simpl nomatch.

Lemma has_char_app c a b : has_char c (a +:+ b) = has_char c a || has_char c b.
Proof. induction a as [|x a IH]; simpl; [reflexivity|]. by rewrite IH, orb_assoc. Qed.

Lemma after_last_none sep s : has_char sep s = false -> after_last sep s = None.
Proof.
  induction s as [|x s IH]; simpl; [reflexivity|].
  intros [Hx Hs]%orb_false_iff. by rewrite (IH Hs), Hx.
Qed.

Lemma after_last_app sep a b :
  has_char sep b = false ->
  after_last sep (a +:+ String sep b) = Some b.
Proof.
  intros Hb. induction a as [|x a IH]; simpl.
  - by rewrite (after_last_none _ _ Hb), Ascii.eqb_refl.
  - by rewrite IH.
Qed.

Lemma skip_dots_other c rest :
  c <> "."%char -> skip_dots (String c rest) = String c rest.
Proof.
  intros Hc. destruct c as [[] [] [] [] [] [] [] []]; try reflexivity.
  by destruct Hc.
Qed.

Lemma skip_dots_app name tail :
  skip_dots name <> "" -> skip_dots (name +:+ tail) = skip_dots name +:+ tail.
Proof.
  induction name as [|c name IH]; [done|].
  destruct (ascii_dec c "."%char) as [->|Hc].
  - simpl. apply IH.
  - intros _. change (String c name +:+ tail) with (String c (name +:+ tail)).
    by rewrite !skip_dots_other.
Qed.

(** The extension of [dir/name.ext], for a name that is not made of dots
    only and an extension without a dot. *)
Lemma splitext_named dir name ext :
  has_char "/" name = false ->
  has_char "/" ext = false ->
  has_char "." ext = false ->
  skip_dots name <> "" ->
  splitext (dir +:+ String "/" (name +:+ String "." ext)) = String "." ext.
Proof.
  intros Hname Hext Hdot Hskip. unfold splitext.
  rewrite after_last_app by (rewrite has_char_app; simpl; by rewrite Hname, Hext).
  by rewrite (skip_dots_app _ _ Hskip), (after_last_app _ _ _ Hdot).
Qed.

(** X18. The comprehensive demo serves every file [dir/name.wasm], for a
    name that has no slash and is not made of dots only, as
    [application/wasm], whatever the table of types the interpreter
    starts with. *)
Theorem comprehensive_demo_serves_named_wasm defaults dir name :
  has_char "/" name = false ->
  skip_dots name <> "" ->
  content_type ComprehensiveDemo defaults (dir +:+ String "/" (name +:+ ".wasm"))
    = "application/wasm".
Proof.
  intros Hname Hskip. apply registered_wasm_type.
  change ".wasm" with (String "."%char "wasm") at 1.
  by rewrite splitext_named.
Qed.

Lemma comprehensive_demo_serves_named_wasm_witness :
  content_type ComprehensiveDemo defaults_without_wasm
    ("examples/comprehensive-demo/pkg" +:+ String "/" ("demo_bg" +:+ ".wasm"))
    = "application/wasm".
Proof.
  apply (comprehensive_demo_serves_named_wasm defaults_without_wasm
           "examples/comprehensive-demo/pkg" "demo_bg"); [reflexivity | discriminate].
Defined.

End ServerExtras.

(** * Where the claims of the specification fail as worded *)

Module Counterexamples.
Import VersionChecker CheckerFacts CheckerTheorems CheckerExtras.
Import DevServer ServerFacts ServerExtras.
Local Open Scope list_scope.

(** Workspace at 1.2.0; the manifest of the first member has a [package]
    table without [version], the second member has
    [version = { path = "VERSION" }], a table without the key
    [workspace]. *)
Definition fs_table_after_broken : gmap string entry :=
  <["Cargo.toml" := root_manifest "1.2.0"]>
  (<[crate_path "leptos-motion-core" :=
       Manifest [("package", TTable [("name", TStr "leptos-motion-core")])]]>
  (<[crate_path "leptos-motion-dom" :=
       member_manifest "leptos-motion-dom" (TTable [("path", TStr "VERSION")])]> ∅)).

(** The number of [end_headers] calls among the calls of the library:
    the number of responses that get a header section. *)
Definition count_end_headers (calls : list call) : nat :=
  length (List.filter (fun c => match c with EndHeaders => true | _ => false end) calls).

(** C1 fails as worded. The second member exists and declares the literal
    1.1.9 while the workspace is at 1.2.0, but the manifest of the first
    member has no [package.version]: the run ends there by an uncaught
    [KeyError], prints no mismatch message and never examines the second
    member. *)
Lemma C1_counterexample :
  workspace_version fs_no_version = Some (TStr "1.2.0")
  /\ "leptos-motion-dom" ∈ crates
  /\ is_Some (fs_no_version !! crate_path "leptos-motion-dom")
  /\ declared_version fs_no_version "leptos-motion-dom" = Some (TStr "1.1.9")
  /\ TStr "1.1.9" <> TStr "1.2.0"
  /\ run sample_repr fs_no_version =
       Report []
         [EvOpen "Cargo.toml";
          EvExists "crates/leptos-motion-core/Cargo.toml";
          EvOpen "crates/leptos-motion-core/Cargo.toml"]
         1.
Proof.
  split; [reflexivity|]. split; [unfold crates; set_solver|].
  split; [by eexists|]. split; [reflexivity|]. split; [discriminate|].
  reflexivity.
Qed.

(** C8 fails as worded. The second member declares a table without the
    key [workspace], but the manifest of the first member has no
    [package.version]: the run ends there, the table is never compared
    with the workspace version and no mismatch message names the second
    member. *)
Lemma C8_counterexample :
  workspace_version fs_table_after_broken = Some (TStr "1.2.0")
  /\ "leptos-motion-dom" ∈ crates
  /\ declared_version fs_table_after_broken "leptos-motion-dom"
       = Some (TTable [("path", TStr "VERSION")])
  /\ assoc "workspace" [("path", TStr "VERSION")] = None
  /\ run sample_repr fs_table_after_broken =
       Report []
         [EvOpen "Cargo.toml";
          EvExists "crates/leptos-motion-core/Cargo.toml";
          EvOpen "crates/leptos-motion-core/Cargo.toml"]
         1.
Proof.
  split; [reflexivity|]. split; [unfold crates; set_solver|].
  split; [reflexivity|]. split; reflexivity.
Qed.

(** C2 fails as worded. A reply sent while the request version of the
    handler is HTTP/0.9 (a request line without a version, or one
    rejected before its version is set) is the body alone: the calls that
    send a status line and headers write nothing, so the reply has none of
    the three headers. *)
Lemma C2_counterexample :
  wfile (snd (answer ComprehensiveDemo get_ok (new_handler "HTTP/0.9")))
    = [Body "hello"]
  /\ header_sections
       (wfile (snd (answer ComprehensiveDemo get_ok (new_handler "HTTP/0.9")))) = [].
Proof. split; reflexivity. Qed.

Lemma sections_of_length v buffer calls :
  length (sections_of v buffer calls) = count_end_headers calls.
Proof.
  revert buffer. unfold count_end_headers.
  induction calls as [|c rest IH]; intros buffer; [reflexivity|].
  destruct c; simpl; by rewrite IH.
Qed.

Lemma own_headers_cors v lines : has_cors (lines ++ own_headers v).
Proof. unfold has_cors. destruct v; simpl; set_solver. Qed.

(** C2, amended. On a request whose version is not HTTP/0.9, whatever the
    server and whatever the calls the library makes to answer (that is,
    whatever the method and the path), every [end_headers] of the library
    writes one header section, and every header section written holds
    [Access-Control-Allow-Origin: *],
    [Access-Control-Allow-Methods: GET, POST, OPTIONS] and
    [Access-Control-Allow-Headers: Content-Type]. *)
Theorem C2_cors_headers_on_every_response_with_headers v version calls :
  version <> "HTTP/0.9" ->
  length (header_sections (wfile (snd (answer v calls (new_handler version)))))
    = count_end_headers calls
  /\ forall section,
       section ∈ header_sections (wfile (snd (answer v calls (new_handler version)))) ->
       Header "Access-Control-Allow-Origin" "*" ∈ section /\
       Header "Access-Control-Allow-Methods" "GET, POST, OPTIONS" ∈ section /\
       Header "Access-Control-Allow-Headers" "Content-Type" ∈ section.
Proof.
  intros Hver. rewrite (header_sections_answer _ _ _ Hver).
  split; [apply sections_of_length|].
  intros section [lines ->]%sections_of_end. apply own_headers_cors.
Qed.

Lemma C2_cors_headers_on_every_response_with_headers_witness :
  (length (header_sections
             (wfile (snd (answer CapabilityShowcase get_ok (new_handler "HTTP/1.1")))))
     = 1%nat
   /\ has_cors
        [StatusLine 200 "OK";
         Header "Server" "SimpleHTTP/0.6 Python/3.11.2";
         Header "Content-type" "text/html";
         Header "Content-Length" "5";
         Header "Access-Control-Allow-Origin" "*";
         Header "Access-Control-Allow-Methods" "GET, POST, OPTIONS";
         Header "Access-Control-Allow-Headers" "Content-Type"])
  /\ (length (header_sections
                (wfile (snd (answer ComprehensiveDemo get_ok (new_handler "HTTP/1.0")))))
        = 1%nat
      /\ has_cors
           [StatusLine 200 "OK";
            Header "Server" "SimpleHTTP/0.6 Python/3.11.2";
            Header "Content-type" "text/html";
            Header "Content-Length" "5";
            Header "Access-Control-Allow-Origin" "*";
            Header "Access-Control-Allow-Methods" "GET, POST, OPTIONS";
            Header "Access-Control-Allow-Headers" "Content-Type"])
  /\ (length (header_sections
                (wfile (snd (answer WebglDemo get_ok (new_handler "HTTP/1.1")))))
        = 1%nat
      /\ has_cors
           [StatusLine 200 "OK";
            Header "Server" "SimpleHTTP/0.6 Python/3.11.2";
            Header "Content-type" "text/html";
            Header "Content-Length" "5";
            Header "Cross-Origin-Embedder-Policy" "require-corp";
            Header "Cross-Origin-Opener-Policy" "same-origin";
            Header "Access-Control-Allow-Origin" "*";
            Header "Access-Control-Allow-Methods" "GET, POST, OPTIONS";
            Header "Access-Control-Allow-Headers" "Content-Type"]).
Proof.
  assert (H11 : "HTTP/1.1" <> "HTTP/0.9") by discriminate.
  assert (H10 : "HTTP/1.0" <> "HTTP/0.9") by discriminate.
  destruct (C2_cors_headers_on_every_response_with_headers
              CapabilityShowcase "HTTP/1.1" get_ok H11) as [Hn1 Hc1].
  destruct (C2_cors_headers_on_every_response_with_headers
              ComprehensiveDemo "HTTP/1.0" get_ok H10) as [Hn2 Hc2].
  destruct (C2_cors_headers_on_every_response_with_headers
              WebglDemo "HTTP/1.1" get_ok H11) as [Hn3 Hc3].
  repeat split; try assumption.
  - apply Hc1. rewrite header_sections_answer by assumption. by left.
  - apply Hc1. rewrite header_sections_answer by assumption. by left.
  - apply Hc1. rewrite header_sections_answer by assumption. by left.
  - apply Hc2. rewrite header_sections_answer by assumption. by left.
  - apply Hc2. rewrite header_sections_answer by assumption. by left.
  - apply Hc2. rewrite header_sections_answer by assumption. by left.
  - apply Hc3. rewrite header_sections_answer by assumption. by left.
  - apply Hc3. rewrite header_sections_answer by assumption. by left.
  - apply Hc3. rewrite header_sections_answer by assumption. by left.
Defined.

End Counterexamples.
